(** * Employee record store: web CRUD surface and query-tool adapters

    A shallow embedding of
      - [src/mcp/employees_server.py]      (protocol-server adapter),
      - [src/mcp/simple_db_interface.py]   (directly-callable adapter),
      - [src/app/views/main.py]            (web create / edit / delete),
      - [src/app/models/employee.py]       (the two tables),
    together with the part of the SQL engine the fixed queries rely on.

    Text is modelled as [string] and read as ASCII (case mapping and white
    space beyond ASCII are outside the model); integers as [Z]; salaries as
    binary64 floats.  The SQL engine is the one the adapters open
    ([sqlite3]) with its defaults: LIKE folds the case of ASCII letters, a
    negative LIMIT puts no bound, aggregates skip NULL.  Integer arguments
    are taken within the engine's signed 64-bit range and LIKE patterns
    within its length limit; beyond them [cursor.execute] raises in both
    adapters alike. *)

From Stdlib Require Import List String Ascii Bool ZArith NArith Lia.
From Stdlib Require Import Sorting.Sorted Sorting.Permutation.
From Stdlib Require Import Floats.PrimFloat Numbers.Cyclic.Int63.Uint63.
Import ListNotations.

Local Open Scope string_scope.
Local Open Scope bool_scope.
Local Open Scope Z_scope.

(* ================================================================== *)
(** ** Python string operations used by the adapters *)
(* ================================================================== *)

Module Py.

(** [str.lower()] on one ASCII character: [A]..[Z] move to [a]..[z]. *)
Definition lower_char (c : ascii) : ascii :=
  let n := N_of_ascii c in
  if (N.leb 65 n && N.leb n 90)%bool then ascii_of_N (n + 32) else c.

(** [s.lower()] *)
Fixpoint lower (s : string) : string :=
  match s with
  | EmptyString => EmptyString
  | String c s' => String (lower_char c) (lower s')
  end.

(** [c.isspace()] for ASCII: tab, LF, VT, FF, CR, the four separators
    0x1c..0x1f and the blank. *)
Definition is_space (c : ascii) : bool :=
  let n := N_of_ascii c in
  (N.leb 9 n && N.leb n 13) || (N.leb 28 n && N.leb n 32).

Fixpoint lstrip (s : string) : string :=
  match s with
  | EmptyString => EmptyString
  | String c s' => if is_space c then lstrip s' else s
  end.

Fixpoint rstrip (s : string) : string :=
  match s with
  | EmptyString => EmptyString
  | String c s' =>
      match rstrip s' with
      | EmptyString => if is_space c then EmptyString else String c EmptyString
      | r => String c r
      end
  end.

(** [s.strip()] *)
Definition strip (s : string) : string := rstrip (lstrip s).

(** [s.startswith(p)] *)
Fixpoint startswith (p s : string) : bool :=
  match p, s with
  | EmptyString, _ => true
  | String _ _, EmptyString => false
  | String a p', String b s' => Ascii.eqb a b && startswith p' s'
  end.

(** [k in s] for two strings: [k] occurs in [s] at some offset. *)
Fixpoint contains (k s : string) : bool :=
  startswith k s ||
  match s with
  | EmptyString => false
  | String _ s' => contains k s'
  end.

(** Truthiness of a string: only the empty string is false. *)
Definition truthy_str (s : string) : bool :=
  match s with EmptyString => false | String _ _ => true end.

(** Truthiness of an [Optional[int]]: [None] and [0] are false. *)
Definition truthy_opt_int (o : option Z) : bool :=
  match o with None => false | Some n => negb (n =? 0) end.

(** [x or None] on an optional form field: an empty text becomes [None]. *)
Definition or_None (o : option string) : option string :=
  match o with
  | Some s => if truthy_str s then Some s else None
  | None => None
  end.

(** Declarative readings of the two tests. *)
Definition StartsWith (p s : string) : Prop := exists r, s = p ++ r.
Definition Contains (k s : string) : Prop := exists a b, s = a ++ k ++ b.

End Py.

(* ================================================================== *)
(** ** The SQL safety validator (both adapters carry a copy) *)
(* ================================================================== *)

Definition dangerous_keywords : list string :=
  [ "drop"; "delete"; "truncate"; "alter"; "create"; "insert"; "update";
    "grant"; "revoke"; "exec"; "execute"; "sp_"; "xp_"; "--"; "/*"; "*/" ].

(** The [for keyword in dangerous_keywords] loop: [false] as soon as one
    keyword occurs, otherwise the value of the code after the loop. *)
Fixpoint for_keywords (kws : list string) (sql_lower : string) (after : bool) : bool :=
  match kws with
  | [] => after
  | keyword :: rest =>
      if Py.contains keyword sql_lower then false
      else for_keywords rest sql_lower after
  end.

Module Server_validator.
(** [employees_server.py], [validate_sql_safety] *)
Definition validate_sql_safety (sql : string) : bool :=
  let sql_lower := Py.strip (Py.lower sql) in
  for_keywords dangerous_keywords sql_lower
    (if negb (Py.startswith "select" sql_lower) then false else true).
End Server_validator.

Module Direct_validator.
(** [simple_db_interface.py], [EmployeeDBInterface.validate_sql_safety] *)
Definition validate_sql_safety (sql : string) : bool :=
  let sql_lower := Py.strip (Py.lower sql) in
  for_keywords dangerous_keywords sql_lower
    (if negb (Py.startswith "select" sql_lower) then false else true).
End Direct_validator.

(* ================================================================== *)
(** ** The two tables ([app/models/employee.py]) *)
(* ================================================================== *)

Module Department.
Record t := mk { id : Z; name : string }.
End Department.

Module Employee.
(** [department_id], [salary] and [hire_date] are nullable. *)
Record t := mk {
  id : Z;
  name : string;
  department_id : option Z;
  salary : option float;
  hire_date : option string
}.
End Employee.

Record Database := {
  employees : list Employee.t;
  departments : list Department.t
}.

(* ================================================================== *)
(** ** The SQL engine, as far as the fixed statements use it *)
(* ================================================================== *)

Module Sql.

(** A value in a result row. *)
Inductive value :=
| VNull
| VInt (n : Z)
| VReal (x : float)
| VText (s : string)
| VBlob (b : string).

Definition of_int (o : option Z) : value :=
  match o with Some n => VInt n | None => VNull end.
Definition of_real (o : option float) : value :=
  match o with Some x => VReal x | None => VNull end.
Definition of_text (o : option string) : value :=
  match o with Some s => VText s | None => VNull end.

(** [e LEFT JOIN d ON e.department_id = d.id]: one joined row per matching
    department, and a row with no department when none matches. *)
Definition joined := (Employee.t * option Department.t)%type.

Definition on_department_id (e : Employee.t) (d : Department.t) : bool :=
  match Employee.department_id e with
  | Some k => k =? Department.id d
  | None => false
  end.

Definition left_join_one (ds : list Department.t) (e : Employee.t) : list joined :=
  match filter (on_department_id e) ds with
  | [] => [(e, None)]
  | ms => map (fun d => (e, Some d)) ms
  end.

Definition left_join (es : list Employee.t) (ds : list Department.t) : list joined :=
  flat_map (left_join_one ds) es.

(** [ORDER BY key]: a stable insertion sort. *)
Fixpoint insert_by {A} (key : A -> Z) (r : A) (rows : list A) : list A :=
  match rows with
  | [] => [r]
  | r' :: rest =>
      if key r <=? key r' then r :: rows else r' :: insert_by key r rest
  end.

Definition order_by {A} (key : A -> Z) (rows : list A) : list A :=
  fold_right (insert_by key) [] rows.

(** [LIMIT n]: the first [n] rows; a negative [n] puts no bound. *)
Definition limit {A} (n : Z) (rows : list A) : list A :=
  if n <? 0 then rows else firstn (Z.to_nat n) rows.

(** [text LIKE pattern] with the engine's defaults: [%] matches any run of
    characters, [_] any one character, and any other character matches itself
    up to the case of ASCII letters.  There is no escape character. *)
Fixpoint like (pattern text : string) : bool :=
  match pattern with
  | EmptyString =>
      match text with EmptyString => true | String _ _ => false end
  | String c p' =>
      if Ascii.eqb c "%" then
        (fix any (t : string) : bool :=
           like p' t ||
           match t with
           | EmptyString => false
           | String _ t' => any t'
           end) text
      else
        match text with
        | EmptyString => false
        | String d t' =>
            (if Ascii.eqb c "_" then true
             else Ascii.eqb (Py.lower_char c) (Py.lower_char d))
            && like p' t'
        end
  end.

(** [x LIKE ?] on a nullable column: NULL never satisfies a WHERE clause. *)
Definition like_nullable (pattern : string) (o : option string) : bool :=
  match o with Some s => like pattern s | None => false end.

(** The six columns every employee statement selects, and the projection of
    a joined row on them. *)
Definition employee_columns : list string :=
  [ "id"; "name"; "department_id"; "department_name"; "salary"; "hire_date" ].

Definition department_name (r : joined) : option string :=
  option_map Department.name (snd r).

Definition employee_row (r : joined) : list value :=
  let e := fst r in
  [ VInt (Employee.id e); VText (Employee.name e);
    of_int (Employee.department_id e); of_text (department_name r);
    of_real (Employee.salary e); of_text (Employee.hire_date e) ].

Definition department_columns : list string := [ "id"; "name" ].

Definition department_row (d : Department.t) : list value :=
  [ VInt (Department.id d); VText (Department.name d) ].

(** A float written to a REAL column: a NaN is stored as NULL. *)
Definition store_real (x : float) : option float :=
  if PrimFloat.is_nan x then None else Some x.

(** The next identifier of an INTEGER PRIMARY KEY column: 1 in an empty
    table, otherwise one more than the largest in use. *)
Definition next_id (ids : list Z) : Z :=
  match ids with
  | [] => 1
  | i :: rest => fold_left Z.max rest i + 1
  end.

(** *** Aggregates: one pass over the table, a row contributing when the
    WHERE clause holds. *)
Record acc := {
  cnt : Z;               (* COUNT( * ) *)
  nonnull : Z;           (* rows whose salary is not NULL *)
  total : float;         (* running sum of the salaries *)
  least : option float;  (* MIN(salary) so far *)
  most : option float    (* MAX(salary) so far *)
}.

Definition acc0 : acc :=
  {| cnt := 0; nonnull := 0; total := 0%float; least := None; most := None |}.

Definition step_min (m : option float) (x : float) : option float :=
  match m with
  | None => Some x
  | Some y => if PrimFloat.ltb x y then Some x else Some y
  end.

Definition step_max (m : option float) (x : float) : option float :=
  match m with
  | None => Some x
  | Some y => if PrimFloat.ltb y x then Some x else Some y
  end.

Definition step (a : acc) (salary : option float) : acc :=
  match salary with
  | None =>
      {| cnt := cnt a + 1; nonnull := nonnull a; total := total a;
         least := least a; most := most a |}
  | Some x =>
      {| cnt := cnt a + 1; nonnull := nonnull a + 1;
         total := PrimFloat.add (total a) x;
         least := step_min (least a) x; most := step_max (most a) x |}
  end.

Definition float_of_Z (n : Z) : float :=
  PrimFloat.of_uint63 (Uint63.of_Z n).

Definition finalize_avg (a : acc) : option float :=
  if nonnull a =? 0 then None
  else Some (PrimFloat.div (total a) (float_of_Z (nonnull a))).

Fixpoint scan (where_ : Employee.t -> bool) (rows : list Employee.t) (a : acc) : acc :=
  match rows with
  | [] => a
  | e :: rest =>
      scan where_ rest (if where_ e then step a (Employee.salary e) else a)
  end.

Definition stats_columns : list string :=
  [ "total_employees"; "avg_salary"; "min_salary"; "max_salary" ].

(** [SELECT COUNT( * ), AVG(salary), MIN(salary), MAX(salary) FROM employees
    [WHERE ...]]: always exactly one row. *)
Definition select_stats (where_ : Employee.t -> bool) (rows : list Employee.t)
  : list value :=
  let a := scan where_ rows acc0 in
  [ VInt (cnt a); of_real (finalize_avg a); of_real (least a); of_real (most a) ].

(** [WHERE department_id = ?] *)
Definition department_id_is (k : Z) (e : Employee.t) : bool :=
  match Employee.department_id e with
  | Some j => j =? k
  | None => false
  end.

(** What [cursor.execute] gives for a free-text statement: the column names
    and the rows, or the engine's error message. *)
Inductive executed :=
| Rows (columns : list string) (rows : list (list value))
| Error (message : string).

End Sql.

(* ================================================================== *)
(** ** Result rows as dictionaries *)
(* ================================================================== *)

Definition Dict := list (string * Sql.value).

(** [d[k] = v]: overwrite in place, or append a new key. *)
Fixpoint dict_set (k : string) (v : Sql.value) (d : Dict) : Dict :=
  match d with
  | [] => [(k, v)]
  | (k', v') :: d' =>
      if String.eqb k' k then (k', v) :: d' else (k', v') :: dict_set k v d'
  end.

(** [dict(zip(columns, row))] *)
Definition dict_zip (columns : list string) (row : list Sql.value) : Dict :=
  fold_left (fun d kv => dict_set (fst kv) (snd kv) d) (combine columns row) [].

Fixpoint dict_get (k : string) (d : Dict) : option Sql.value :=
  match d with
  | [] => None
  | (k', v) :: d' => if String.eqb k' k then Some v else dict_get k d'
  end.

(** [json.dumps] renders every value but bytes, on which it raises
    [TypeError] with the message below. *)
Definition json_value (v : Sql.value) : bool :=
  match v with
  | Sql.VBlob _ => false
  | _ => true
  end.

Definition json_serializable (rows : list Dict) : bool :=
  forallb (fun d : Dict => forallb (fun kv => json_value (snd kv)) d) rows.

Definition bytes_not_serializable : string :=
  "Object of type bytes is not JSON serializable".

(** [cursor.fetchone()] *)
Definition fetchone {A} (rows : list A) : option A := hd_error rows.

(** A call either returns or raises. *)
Inductive outcome (A : Type) :=
| Return (a : A)
| Raise (exception message : string).
Arguments Return {A} a.
Arguments Raise {A} exception message.

Definition default {A} (d : A) (o : option A) : A :=
  match o with Some a => a | None => d end.

(** The argument assignment of a tool call: each argument is present with a
    value of the type its schema declares, or absent. *)
Record Arguments := {
  arg_limit : option Z;
  arg_employee_id : option Z;
  arg_name : option string;
  arg_department : option string;
  arg_department_id : option Z;
  arg_query : option string
}.

(* ================================================================== *)
(** ** The directly-callable adapter ([simple_db_interface.py]) *)
(* ================================================================== *)

Module Direct.
Section EmployeeDBInterface.

(** The engine run on a free-text statement. *)
Variable execute : Database -> string -> Sql.executed.

Definition validate_sql_safety := Direct_validator.validate_sql_safety.

(** [list_employees(self, limit=100)] *)
Definition list_employees (db : Database) (limit : option Z) : list Dict :=
  let limit := default 100 limit in
  let rows :=
    map Sql.employee_row
      (Sql.limit limit
         (Sql.order_by (fun r => Employee.id (fst r))
            (Sql.left_join (employees db) (departments db)))) in
  map (dict_zip Sql.employee_columns) rows.

(** [get_employee(self, employee_id)] *)
Definition get_employee (db : Database) (employee_id : Z) : option Dict :=
  let rows :=
    map Sql.employee_row
      (filter (fun r => Employee.id (fst r) =? employee_id)
         (Sql.left_join (employees db) (departments db))) in
  match fetchone rows with
  | Some row => Some (dict_zip Sql.employee_columns row)
  | None => None
  end.

(** [search_employees(self, name="", department="", limit=50)]: the WHERE
    clause grows by one LIKE test per filter that is truthy. *)
Definition search_employees (db : Database)
    (name department : option string) (limit : option Z) : list Dict :=
  let name := default "" name in
  let department := default "" department in
  let limit := default 50 limit in
  let where_name (r : Sql.joined) :=
    if Py.truthy_str name
    then Sql.like ("%" ++ name ++ "%") (Employee.name (fst r)) else true in
  let where_department (r : Sql.joined) :=
    if Py.truthy_str department
    then Sql.like_nullable ("%" ++ department ++ "%") (Sql.department_name r)
    else true in
  let rows :=
    map Sql.employee_row
      (Sql.limit limit
         (Sql.order_by (fun r => Employee.id (fst r))
            (filter (fun r => where_name r && where_department r)
               (Sql.left_join (employees db) (departments db))))) in
  map (dict_zip Sql.employee_columns) rows.

(** [list_departments(self)] *)
Definition list_departments (db : Database) : list Dict :=
  let rows := map Sql.department_row (Sql.order_by Department.id (departments db)) in
  map (dict_zip Sql.department_columns) rows.

(** [get_employee_stats(self, department_id=None)] *)
Definition get_employee_stats (db : Database) (department_id : option Z) : Dict :=
  let row :=
    if Py.truthy_opt_int department_id
    then Sql.select_stats (Sql.department_id_is (default 0 department_id)) (employees db)
    else Sql.select_stats (fun _ => true) (employees db) in
  dict_zip Sql.stats_columns row.

(** [safe_query(self, query)] *)
Definition safe_query (db : Database) (query : string) : outcome (list Dict) :=
  if negb (validate_sql_safety query) then
    Raise "ValueError"
      "Query contains unsafe operations. Only SELECT statements are allowed."
  else
    match execute db query with
    | Sql.Rows columns rows => Return (map (dict_zip columns) rows)
    | Sql.Error e => Raise "ValueError" ("SQL Error: " ++ e)
    end.

(** What a method call hands back. *)
Inductive result :=
| RList (rows : list Dict)
| ROptional (row : option Dict)
| RDict (row : Dict).

(** The method [name] called with the keyword arguments [a]; an absent
    argument takes the default of the signature, and a missing positional
    argument is a [TypeError]. *)
Definition call (db : Database) (name : string) (a : Arguments) : outcome result :=
  if String.eqb name "list_employees" then
    Return (RList (list_employees db (arg_limit a)))
  else if String.eqb name "get_employee" then
    match arg_employee_id a with
    | Some i => Return (ROptional (get_employee db i))
    | None => Raise "TypeError" "employee_id"
    end
  else if String.eqb name "search_employees" then
    Return (RList (search_employees db (arg_name a) (arg_department a) (arg_limit a)))
  else if String.eqb name "list_departments" then
    Return (RList (list_departments db))
  else if String.eqb name "get_employee_stats" then
    Return (RDict (get_employee_stats db (arg_department_id a)))
  else if String.eqb name "safe_query" then
    match arg_query a with
    | Some q =>
        match safe_query db q with
        | Return rows => Return (RList rows)
        | Raise x m => Raise x m
        end
    | None => Raise "TypeError" "query"
    end
  else Raise "AttributeError" name.

End EmployeeDBInterface.
End Direct.

(* ================================================================== *)
(** ** The protocol-server adapter ([employees_server.py]) *)
(* ================================================================== *)

Module Server.
Section handle_call_tool.

Variable execute : Database -> string -> Sql.executed.

Definition validate_sql_safety := Server_validator.validate_sql_safety.

(** What is passed to [json.dumps]. *)
Inductive json :=
| JList (rows : list Dict)
| JDict (row : Dict).

(** The [text] of a [TextContent]: a JSON rendering or a literal message. *)
Inductive text :=
| Dumps (j : json)
| Message (s : string).

Definition TextContent := text.

(** [handle_call_tool(name, arguments)].  The fixed statements read typed
    columns, whose values [json.dumps] always renders; a free-text statement
    may bring back bytes, and the [TypeError] of [json.dumps] is not among
    the exceptions the handler catches. *)
Definition handle_call_tool (db : Database) (name : string) (arguments : Arguments)
  : outcome (list TextContent) :=
  if String.eqb name "list_employees" then
    let limit := default 100 (arg_limit arguments) in
    let rows :=
      map Sql.employee_row
        (Sql.limit limit
           (Sql.order_by (fun r => Employee.id (fst r))
              (Sql.left_join (employees db) (departments db)))) in
    let result := map (dict_zip Sql.employee_columns) rows in
    Return [Dumps (JList result)]
  else if String.eqb name "get_employee" then
    match arg_employee_id arguments with
    | None => Raise "KeyError" "employee_id"
    | Some employee_id =>
        let rows :=
          map Sql.employee_row
            (filter (fun r => Employee.id (fst r) =? employee_id)
               (Sql.left_join (employees db) (departments db))) in
        match fetchone rows with
        | Some row => Return [Dumps (JDict (dict_zip Sql.employee_columns row))]
        | None => Return [Message "Employee not found"]
        end
    end
  else if String.eqb name "search_employees" then
    let name_filter := default "" (arg_name arguments) in
    let department_filter := default "" (arg_department arguments) in
    let limit := default 50 (arg_limit arguments) in
    let where_name (r : Sql.joined) :=
      if Py.truthy_str name_filter
      then Sql.like ("%" ++ name_filter ++ "%") (Employee.name (fst r))
      else true in
    let where_department (r : Sql.joined) :=
      if Py.truthy_str department_filter
      then Sql.like_nullable ("%" ++ department_filter ++ "%") (Sql.department_name r)
      else true in
    let rows :=
      map Sql.employee_row
        (Sql.limit limit
           (Sql.order_by (fun r => Employee.id (fst r))
              (filter (fun r => where_name r && where_department r)
                 (Sql.left_join (employees db) (departments db))))) in
    let result := map (dict_zip Sql.employee_columns) rows in
    Return [Dumps (JList result)]
  else if String.eqb name "list_departments" then
    let rows := map Sql.department_row (Sql.order_by Department.id (departments db)) in
    let result := map (dict_zip Sql.department_columns) rows in
    Return [Dumps (JList result)]
  else if String.eqb name "get_employee_stats" then
    let department_id := arg_department_id arguments in
    let row :=
      if Py.truthy_opt_int department_id
      then Sql.select_stats (Sql.department_id_is (default 0 department_id)) (employees db)
      else Sql.select_stats (fun _ => true) (employees db) in
    let result := dict_zip Sql.stats_columns row in
    Return [Dumps (JDict result)]
  else if String.eqb name "safe_query" then
    match arg_query arguments with
    | None => Raise "KeyError" "query"
    | Some query =>
        if negb (validate_sql_safety query) then
          Return [Message
            "Error: Query contains unsafe operations. Only SELECT statements are allowed."]
        else
          match execute db query with
          | Sql.Rows columns rows =>
              let result := map (dict_zip columns) rows in
              if json_serializable result then Return [Dumps (JList result)]
              else Raise "TypeError" bytes_not_serializable
          | Sql.Error e => Return [Message ("SQL Error: " ++ e)]
          end
    end
  else Return [Message ("Unknown tool: " ++ name)].

End handle_call_tool.
End Server.

(** The six operations both adapters offer. *)
Definition operations : list string :=
  [ "list_employees"; "get_employee"; "search_employees";
    "list_departments"; "get_employee_stats"; "safe_query" ].

(** The result rows carried by an answer of either adapter, whatever the
    packaging: a list of rows as it is, a single row as a list of one, and no
    rows for "not found", a refusal or an error. *)
Definition direct_rows (o : outcome Direct.result) : list Dict :=
  match o with
  | Return (Direct.RList rows) => rows
  | Return (Direct.ROptional (Some row)) => [row]
  | Return (Direct.ROptional None) => []
  | Return (Direct.RDict row) => [row]
  | Raise _ _ => []
  end.

Definition server_rows (o : outcome (list Server.TextContent)) : list Dict :=
  match o with
  | Return [Server.Dumps (Server.JList rows)] => rows
  | Return [Server.Dumps (Server.JDict row)] => [row]
  | _ => []
  end.

(* ================================================================== *)
(** ** The web CRUD surface ([app/views/main.py]) *)
(* ================================================================== *)

Module Web.

Inductive method := GET | POST.

(** A submitted form.  [name] is always posted; the department selector
    posts the text of a department identifier, which the INTEGER column
    stores as that integer, or nothing; salary and hire date are free text
    and may be missing. *)
Record Form := {
  form_name : string;
  form_department_id : option Z;
  form_salary : option string;
  form_hire_date : option string
}.

Inductive response :=
| render_template (template : string)
| redirect (endpoint : string)
| abort (code : Z).

(** The state a request handler runs in: the database as committed, the
    session's uncommitted view of it, and the flashed messages (category
    and text, newest last). *)
Record ctx := {
  persisted : Database;
  working : Database;
  flashes : list (string * string)
}.

Definition flash (message category : string) (c : ctx) : ctx :=
  {| persisted := persisted c; working := working c;
     flashes := flashes c ++ [(category, message)] |}.

(** [db.session.commit()].  The statements a handler issues satisfy the
    constraints of the two tables, so the commit goes through; the handlers'
    [except] branches serve engine failures. *)
Definition commit (c : ctx) : ctx :=
  {| persisted := working c; working := working c; flashes := flashes c |}.

(** The session is dropped when the request ends: what was not committed
    is lost. *)
Definition teardown (c : ctx) : ctx :=
  {| persisted := persisted c; working := persisted c; flashes := flashes c |}.

Definition set_working (w : Database) (c : ctx) : ctx :=
  {| persisted := persisted c; working := w; flashes := flashes c |}.

(** [Employee.query.get(employee_id)] *)
Definition query_get (employee_id : Z) (c : ctx) : option Employee.t :=
  find (fun e => Employee.id e =? employee_id) (employees (working c)).

(** Attribute writes on the loaded employee, seen through the session. *)
Definition update (employee_id : Z) (f : Employee.t -> Employee.t) (c : ctx) : ctx :=
  set_working
    {| employees :=
         map (fun e => if Employee.id e =? employee_id then f e else e)
             (employees (working c));
       departments := departments (working c) |} c.

(** [db.session.add(employee)]: the row gets the next identifier. *)
Definition session_add (name : string) (department_id : option Z)
    (salary : option float) (hire_date : option string) (c : ctx) : ctx :=
  let w := working c in
  let new_id := Sql.next_id (map Employee.id (employees w)) in
  set_working
    {| employees :=
         employees w ++
         [Employee.mk new_id name department_id
            (match salary with Some x => Sql.store_real x | None => None end)
            hire_date];
       departments := departments w |} c.

(** [db.session.delete(employee)] *)
Definition session_delete (employee_id : Z) (c : ctx) : ctx :=
  let w := working c in
  set_working
    {| employees := filter (fun e => negb (Employee.id e =? employee_id)) (employees w);
       departments := departments w |} c.

Section Handlers.

(** Python's [float(text)]: the number read, or [None] for [ValueError]. *)
Variable py_float : string -> option float.

(** [create_employee()] *)
Definition create_employee (m : method) (form : Form) (c : ctx) : response * ctx :=
  match m with
  | POST =>
      let name := form_name form in
      let department_id := form_department_id form in
      let salary := Py.or_None (form_salary form) in
      let hire_date := Py.or_None (form_hire_date form) in
      let parsed :=
        match salary with
        | Some text =>
            match py_float text with
            | Some x => Return (Some x)
            | None => Raise "ValueError" text
            end
        | None => Return None
        end in
      match parsed with
      | Raise _ _ =>
          (render_template "employees/create.html",
           flash "Invalid salary format" "error" c)
      | Return salary =>
          let c := session_add name department_id salary hire_date c in
          let c := commit c in
          let c := flash "Employee created successfully!" "success" c in
          (redirect "main.list_employees", c)
      end
  | GET => (render_template "employees/create.html", c)
  end.

(** [edit_employee(employee_id)] *)
Definition edit_employee (employee_id : Z) (m : method) (form : Form) (c : ctx)
  : response * ctx :=
  match query_get employee_id c with
  | None => (abort 404, c)
  | Some _ =>
      match m with
      | POST =>
          let c := update employee_id
                     (fun e => Employee.mk (Employee.id e) (form_name form)
                                 (Employee.department_id e) (Employee.salary e)
                                 (Employee.hire_date e)) c in
          let c := update employee_id
                     (fun e => Employee.mk (Employee.id e) (Employee.name e)
                                 (form_department_id form) (Employee.salary e)
                                 (Employee.hire_date e)) c in
          let salary := Py.or_None (form_salary form) in
          let c := update employee_id
                     (fun e => Employee.mk (Employee.id e) (Employee.name e)
                                 (Employee.department_id e) (Employee.salary e)
                                 (Py.or_None (form_hire_date form))) c in
          let set_salary (v : option float) :=
            update employee_id
              (fun e => Employee.mk (Employee.id e) (Employee.name e)
                          (Employee.department_id e) v (Employee.hire_date e)) in
          match salary with
          | Some text =>
              match py_float text with
              | Some x =>
                  let c := set_salary (Sql.store_real x) c in
                  let c := commit c in
                  let c := flash "Employee updated successfully!" "success" c in
                  (redirect "main.list_employees", c)
              | None =>
                  (render_template "employees/edit.html",
                   flash "Invalid salary format" "error" c)
              end
          | None =>
              let c := set_salary None c in
              let c := commit c in
              let c := flash "Employee updated successfully!" "success" c in
              (redirect "main.list_employees", c)
          end
      | GET => (render_template "employees/edit.html", c)
      end
  end.

(** [delete_employee(employee_id)] (the route accepts POST only) *)
Definition delete_employee (employee_id : Z) (c : ctx) : response * ctx :=
  match query_get employee_id c with
  | None => (abort 404, c)
  | Some _ =>
      let c := session_delete employee_id c in
      let c := commit c in
      let c := flash "Employee deleted successfully!" "success" c in
      (redirect "main.list_employees", c)
  end.

(** One request from start to end: the session starts from the committed
    state and is dropped afterwards. *)
Definition serve (handler : ctx -> response * ctx) (c : ctx) : response * ctx :=
  let (r, c') := handler (teardown c) in (r, teardown c').

End Handlers.
End Web.

(* ================================================================== *)
(** ** The statistics as the specification words them *)
(* ================================================================== *)

Module Independent.

(** The employees whose department reference equals [k]. *)
Definition in_department (k : Z) (db : Database) : list Employee.t :=
  filter (fun e => match Employee.department_id e with
                   | Some j => Z.eqb j k
                   | None => false
                   end) (employees db).

(** Their salaries, where one is recorded. *)
Fixpoint salaries (es : list Employee.t) : list float :=
  match es with
  | [] => []
  | e :: rest =>
      match Employee.salary e with
      | Some x => x :: salaries rest
      | None => salaries rest
      end
  end.

Definition count (es : list Employee.t) : Z := Z.of_nat (List.length es).

Definition average (xs : list float) : option float :=
  match xs with
  | [] => None
  | _ :: _ =>
      Some (PrimFloat.div (fold_left PrimFloat.add xs 0%float)
              (Sql.float_of_Z (Z.of_nat (List.length xs))))
  end.

Definition minimum (xs : list float) : option float :=
  match xs with
  | [] => None
  | x :: rest =>
      Some (fold_left (fun m y => if PrimFloat.ltb y m then y else m) rest x)
  end.

Definition maximum (xs : list float) : option float :=
  match xs with
  | [] => None
  | x :: rest =>
      Some (fold_left (fun m y => if PrimFloat.ltb m y then y else m) rest x)
  end.

End Independent.

(* ================================================================== *)
(** ** A reader of numbers for the examples *)
(* ================================================================== *)

Fixpoint digits_value (s : string) (n : Z) : option Z :=
  match s with
  | EmptyString => Some n
  | String c s' =>
      let d := Z.of_N (N_of_ascii c) in
      if (48 <=? d) && (d <=? 57) then digits_value s' (10 * n + (d - 48))
      else None
  end.

(** [float(text)] on the unsigned decimal integers of at most fifteen digits,
    which binary64 holds exactly; any other text is refused.  The handlers
    take the real [float] as a parameter; this reader instantiates it where an
    example needs one. *)
Definition float_of_digits (s : string) : option float :=
  match s with
  | EmptyString => None
  | String _ _ =>
      if Nat.leb (String.length s) 15
      then option_map Sql.float_of_Z (digits_value s 0)
      else None
  end.

(* ================================================================== *)
(** ** Reading result rows *)
(* ================================================================== *)

(** The employee identifier a result row carries. *)
Definition row_id (d : Dict) : option Z :=
  match dict_get "id" d with
  | Some (Sql.VInt n) => Some n
  | _ => None
  end.

(** The rows carry identifiers, in ascending order. *)
Definition ordered_by_id (rows : list Dict) : Prop :=
  exists ids, map row_id rows = map Some ids /\ StronglySorted Z.le ids.

(** A table of [n] employees numbered from 1, with no department. *)
Definition staff (n : nat) : Database :=
  {| employees :=
       map (fun i => Employee.mk (Z.of_nat i) "e" None None None) (seq 1 n);
     departments := [] |}.

(** An argument assignment with only a limit. *)
Definition with_limit (n : Z) : Arguments :=
  {| arg_limit := Some n; arg_employee_id := None; arg_name := None;
     arg_department := None; arg_department_id := None; arg_query := None |}.

(** An engine that refuses every free-text statement, for the examples that
    do not reach it. *)
Definition no_engine (db : Database) (query : string) : Sql.executed :=
  Sql.Error "not supported".

(* ================================================================== *)
(** ** Filters and sample data for the search *)
(* ================================================================== *)

(** The text has neither of the two LIKE wildcards. *)
Fixpoint no_wildcard (s : string) : bool :=
  match s with
  | EmptyString => true
  | String c s' => negb (Ascii.eqb c "%") && negb (Ascii.eqb c "_") && no_wildcard s'
  end.

(** The text of a column of a result row. *)
Definition row_text (column : string) (d : Dict) : option string :=
  match dict_get column d with
  | Some (Sql.VText s) => Some s
  | _ => None
  end.

(** One department, one employee in it. *)
Definition ada_db : Database :=
  {| employees :=
       [Employee.mk 1 "Ada" (Some 1) (Some 120000%float) (Some "2023-01-15")];
     departments := [Department.mk 1 "Engineering"] |}.

Definition ada_row : Dict :=
  [ ("id", Sql.VInt 1); ("name", Sql.VText "Ada");
    ("department_id", Sql.VInt 1); ("department_name", Sql.VText "Engineering");
    ("salary", Sql.VReal 120000%float); ("hire_date", Sql.VText "2023-01-15") ].

Definition search_arguments (name department : string) : Arguments :=
  {| arg_limit := None; arg_employee_id := None; arg_name := Some name;
     arg_department := Some department; arg_department_id := None;
     arg_query := None |}.

(* ================================================================== *)
(** ** The protocol server's resources and tool catalogue
       ([employees_server.py]) *)
(* ================================================================== *)

Module Protocol.

(** The address of a resource: a URL object, not a [str]. *)
Inductive AnyUrl := Url (text : string).

Record Resource := {
  uri : AnyUrl;
  name : string;
  description : string;
  mimeType : string
}.

(** [handle_list_resources()] *)
Definition handle_list_resources : list Resource :=
  [ {| uri := Url "employees://employees"; name := "Employees Table";
       description := "Employee records with department information";
       mimeType := "application/json" |};
    {| uri := Url "employees://departments"; name := "Departments Table";
       description := "Department information";
       mimeType := "application/json" |} ].

(** [handle_read_resource(uri: str)]: the whole table as JSON text when the
    text is one of the two literals, [ValueError] otherwise. *)
Definition handle_read_resource (db : Database) (uri : string) : outcome Server.text :=
  if String.eqb uri "employees://employees" then
    let rows :=
      map Sql.employee_row
        (Sql.order_by (fun r => Employee.id (fst r))
           (Sql.left_join (employees db) (departments db))) in
    let result := map (dict_zip Sql.employee_columns) rows in
    Return (Server.Dumps (Server.JList result))
  else if String.eqb uri "employees://departments" then
    let rows := map Sql.department_row (Sql.order_by Department.id (departments db)) in
    let result := map (dict_zip Sql.department_columns) rows in
    Return (Server.Dumps (Server.JList result))
  else Raise "ValueError" ("Unknown resource: " ++ uri).

(** One entry of an input schema's [properties]. *)
Record Property := {
  key : string;
  type : string;
  about : string;
  minimum : option Z;
  maximum : option Z
}.

Record Tool := {
  tool_name : string;
  tool_description : string;
  properties : list Property;
  required : list string
}.

(** [handle_list_tools()] *)
Definition handle_list_tools : list Tool :=
  [ {| tool_name := "list_employees";
       tool_description := "List all employees with their department information";
       properties :=
         [ {| key := "limit"; type := "integer";
              about := "Maximum number of employees to return (default: 100)";
              minimum := Some 1; maximum := Some 1000 |} ];
       required := [] |};
    {| tool_name := "get_employee";
       tool_description := "Get a specific employee by ID";
       properties :=
         [ {| key := "employee_id"; type := "integer";
              about := "The ID of the employee to retrieve";
              minimum := None; maximum := None |} ];
       required := ["employee_id"] |};
    {| tool_name := "search_employees";
       tool_description := "Search employees by name or department";
       properties :=
         [ {| key := "name"; type := "string";
              about := "Search by employee name (partial match)";
              minimum := None; maximum := None |};
           {| key := "department"; type := "string";
              about := "Search by department name";
              minimum := None; maximum := None |};
           {| key := "limit"; type := "integer";
              about := "Maximum number of results (default: 50)";
              minimum := Some 1; maximum := Some 500 |} ];
       required := [] |};
    {| tool_name := "list_departments";
       tool_description := "List all departments";
       properties := [];
       required := [] |};
    {| tool_name := "get_employee_stats";
       tool_description := "Get statistics about employees (count, average salary, etc.)";
       properties :=
         [ {| key := "department_id"; type := "integer";
              about := "Filter by department ID (optional)";
              minimum := None; maximum := None |} ];
       required := [] |};
    {| tool_name := "safe_query";
       tool_description :=
         "Execute a safe SELECT query (read-only, no destructive operations)";
       properties :=
         [ {| key := "query"; type := "string";
              about := "SQL SELECT query to execute";
              minimum := None; maximum := None |} ];
       required := ["query"] |} ].

(** [key in arguments] *)
Definition has_argument (k : string) (a : Arguments) : bool :=
  if String.eqb k "limit" then
    match arg_limit a with Some _ => true | None => false end
  else if String.eqb k "employee_id" then
    match arg_employee_id a with Some _ => true | None => false end
  else if String.eqb k "name" then
    match arg_name a with Some _ => true | None => false end
  else if String.eqb k "department" then
    match arg_department a with Some _ => true | None => false end
  else if String.eqb k "department_id" then
    match arg_department_id a with Some _ => true | None => false end
  else if String.eqb k "query" then
    match arg_query a with Some _ => true | None => false end
  else false.

End Protocol.

(* ================================================================== *)
(** ** The command loop of the directly-callable adapter
       ([simple_db_interface.py], [main]) *)
(* ================================================================== *)

Module Cli.

(** [s.split()]: the maximal runs of characters that are not white space. *)
Fixpoint split (s : string) : list string :=
  match s with
  | EmptyString => []
  | String c s' =>
      if Py.is_space c then split s'
      else
        match s' with
        | EmptyString => [String c EmptyString]
        | String d _ =>
            if Py.is_space d then String c EmptyString :: split s'
            else
              match split s' with
              | w :: ws => String c w :: ws
              | [] => [String c EmptyString]
              end
        end
  end.

(** [" ".join(words)] *)
Fixpoint join (words : list string) : string :=
  match words with
  | [] => EmptyString
  | [w] => w
  | w :: rest => w ++ " " ++ join rest
  end.

(** Truthiness of a dictionary: only the empty one is false. *)
Definition truthy_dict (d : Dict) : bool :=
  match d with [] => false | _ :: _ => true end.

(** What a [print] call writes: a JSON rendering or a line of text. *)
Inductive printed :=
| print_rows (rows : list Dict)
| print_row (row : Dict)
| print_line (s : string).

(** What [input] gives: a line, or the user's interrupt. *)
Inductive event :=
| Input (line : string)
| KeyboardInterrupt.

(** One turn of the loop: it goes on, having printed, or it breaks. *)
Inductive turn :=
| Continue (out : list printed)
| Break.

Definition banner : list string :=
  [ "Employee Database Interface"; "Available commands:";
    "1. list_employees [limit]"; "2. get_employee <id>";
    "3. search_employees [name] [department] [limit]";
    "4. list_departments"; "5. get_employee_stats [department_id]";
    "6. safe_query <sql>"; "7. quit" ].

Section main.

Variable execute : Database -> string -> Sql.executed.

(** Python's [int(text)]: the integer read, or the message of the
    [ValueError]. *)
Variable py_int : string -> Z + string.

(** The handler of [except Exception as e]. *)
Definition except_Exception (message : string) : turn :=
  Continue [print_line ("Error: " ++ message)].

(** The body of [while True] on one line of input. *)
Definition body (db : Database) (line : string) : turn :=
  let command := split (Py.strip line) in
  match command with
  | [] => Continue []
  | word :: arguments =>
      let cmd := Py.lower word in
      if String.eqb cmd "quit" then Break
      else if String.eqb cmd "list_employees" then
        match arguments with
        | a :: _ =>
            match py_int a with
            | inl limit => Continue [print_rows (Direct.list_employees db (Some limit))]
            | inr e => except_Exception e
            end
        | [] => Continue [print_rows (Direct.list_employees db (Some 100))]
        end
      else if String.eqb cmd "get_employee" then
        match arguments with
        | [] => Continue [print_line "Usage: get_employee <id>"]
        | a :: _ =>
            match py_int a with
            | inl employee_id =>
                match Direct.get_employee db employee_id with
                | Some result =>
                    if truthy_dict result then Continue [print_row result]
                    else Continue [print_line "Employee not found"]
                | None => Continue [print_line "Employee not found"]
                end
            | inr e => except_Exception e
            end
        end
      else if String.eqb cmd "search_employees" then
        let name := nth 0 arguments "" in
        let department := nth 1 arguments "" in
        match nth_error arguments 2 with
        | Some a =>
            match py_int a with
            | inl limit =>
                Continue [print_rows
                  (Direct.search_employees db (Some name) (Some department) (Some limit))]
            | inr e => except_Exception e
            end
        | None =>
            Continue [print_rows
              (Direct.search_employees db (Some name) (Some department) (Some 50))]
        end
      else if String.eqb cmd "list_departments" then
        Continue [print_rows (Direct.list_departments db)]
      else if String.eqb cmd "get_employee_stats" then
        match arguments with
        | a :: _ =>
            match py_int a with
            | inl department_id =>
                Continue [print_row (Direct.get_employee_stats db (Some department_id))]
            | inr e => except_Exception e
            end
        | [] => Continue [print_row (Direct.get_employee_stats db None)]
        end
      else if String.eqb cmd "safe_query" then
        match arguments with
        | [] => Continue [print_line "Usage: safe_query <sql>"]
        | _ :: _ =>
            let query := join arguments in
            match Direct.safe_query execute db query with
            | Return result =>
                if json_serializable result then Continue [print_rows result]
                else except_Exception bytes_not_serializable
            | Raise _ e => Continue [print_line ("Error: " ++ e)]
            end
        end
      else Continue [print_line "Unknown command"]
  end.

(** The loop on the input given so far: it ends at [quit] or at an
    interrupt, and otherwise waits for more. *)
Fixpoint loop (db : Database) (events : list event) : list printed :=
  match events with
  | [] => []
  | KeyboardInterrupt :: _ => []
  | Input line :: rest =>
      match body db line with
      | Break => []
      | Continue out => out ++ loop db rest
      end
  end.

(** [main()]: the banner, then the loop. *)
Definition main (db : Database) (events : list event) : list printed :=
  (map print_line banner ++ loop db events)%list.

End main.
End Cli.

(* ================================================================== *)
(** ** The web read paths ([app/views/main.py], [app/models/employee.py]) *)
(* ================================================================== *)

Module Views.

(** [get_departments()] *)
Definition get_departments (c : Web.ctx) : list Department.t :=
  departments (Web.working c).

(** [employee.department]: the department row the reference points at. *)
Definition department_of (db : Database) (e : Employee.t) : option Department.t :=
  match Employee.department_id e with
  | Some k => find (fun d => Department.id d =? k) (departments db)
  | None => None
  end.

(** [Employee.to_dict(self)] *)
Definition to_dict (db : Database) (e : Employee.t) : Dict :=
  [ ("id", Sql.VInt (Employee.id e));
    ("name", Sql.VText (Employee.name e));
    ("department_id", Sql.of_int (Employee.department_id e));
    ("department_name",
       match department_of db e with
       | Some d => Sql.VText (Department.name d)
       | None => Sql.VNull
       end);
    ("salary", Sql.of_real (Employee.salary e));
    ("hire_date", Sql.of_text (Employee.hire_date e)) ].

(** The entities of a query come once each, however many joined rows carry
    them. *)
Fixpoint unique_entities (seen : list Z) (es : list Employee.t) : list Employee.t :=
  match es with
  | [] => []
  | e :: rest =>
      if existsb (Z.eqb (Employee.id e)) seen then unique_entities seen rest
      else e :: unique_entities (Employee.id e :: seen) rest
  end.

(** [Employee.query.join(Department, ..., isouter=True).all()] *)
Definition query_join_all (db : Database) : list Employee.t :=
  unique_entities [] (map fst (Sql.left_join (employees db) (departments db))).

(** [api_employees()]: the list handed to [jsonify]. *)
Definition api_employees (db : Database) : list Dict :=
  map (to_dict db) (query_join_all db).

End Views.

(** No character of the text is white space. *)
Definition no_space (k : string) : Prop :=
  forall a c b, k = a ++ String c b -> Py.is_space c = false.

(** A request handler keeps the tables in shape: the departments as they
    were committed, and employee identifiers unique if they were. *)
Definition keeps_tables (handler : Web.ctx -> Web.response * Web.ctx) : Prop :=
  forall c,
    let c' := snd (Web.serve handler c) in
    departments (Web.persisted c') = departments (Web.persisted c) /\
    (NoDup (map Employee.id (employees (Web.persisted c))) ->
     NoDup (map Employee.id (employees (Web.persisted c')))).

(** The salary an accepted form stores: NULL for an empty or missing field,
    the number read otherwise; [None] when the text is not a number. *)
Definition salary_of_form (py_float : string -> option float) (form : Web.Form)
  : option (option float) :=
  match Py.or_None (Web.form_salary form) with
  | None => Some None
  | Some text =>
      match py_float text with
      | Some x => Some (Sql.store_real x)
      | None => None
      end
  end.

(** A word as [split] produces them: not empty, no white space in it. *)
Fixpoint all_nonspace (w : string) : bool :=
  match w with
  | EmptyString => true
  | String c w' => negb (Py.is_space c) && all_nonspace w'
  end.

Definition is_word (w : string) : bool := Py.truthy_str w && all_nonspace w.

(* ================================================================== *)
(** ** A statement that brings back bytes *)
(* ================================================================== *)

(** A SELECT of one BLOB literal, the byte [A]. *)
Definition blob_statement : string := "select x'41' as b".

(** The engine on that statement: one column [b], one row, one BLOB. *)
Definition blob_engine (db : Database) (query : string) : Sql.executed :=
  if String.eqb query blob_statement
  then Sql.Rows ["b"] [[Sql.VBlob "A"]]
  else Sql.Error "not supported".

Definition blob_arguments : Arguments :=
  {| arg_limit := None; arg_employee_id := None; arg_name := None;
     arg_department := None; arg_department_id := None;
     arg_query := Some blob_statement |}.


(* ================================================================== *)
(** * Properties *)
(* ================================================================== *)

Section StringFacts.

Lemma startswith_spec p s : Py.startswith p s = true <-> Py.StartsWith p s.
Proof.
  unfold Py.StartsWith. revert s.
  induction p as [|a p IH]; intros s; simpl.
  - split; [intros _; now exists s | reflexivity].
  - destruct s as [|b s].
    + split; [discriminate | intros [r Hr]; discriminate].
    + rewrite andb_true_iff, Ascii.eqb_eq, IH. split.
      * intros [-> [r ->]]. now exists r.
      * intros [r Hr]. injection Hr as -> ->. split; [reflexivity | now exists r].
Qed.

Lemma append_assoc (a b c : string) : (a ++ b) ++ c = a ++ (b ++ c).
Proof. induction a as [|x a IH]; simpl; [reflexivity | now rewrite IH]. Qed.

Lemma contains_spec k s : Py.contains k s = true <-> Py.Contains k s.
Proof.
  unfold Py.Contains.
  induction s as [|c s IH].
  - simpl. rewrite orb_false_r, startswith_spec. split.
    + intros [r Hr]. now exists "", r.
    + intros [a [b H]]. destruct a; simpl in H.
      * now exists b.
      * discriminate.
  - cbn [Py.contains]. rewrite orb_true_iff, startswith_spec, IH. split.
    + intros [[r Hr] | [a [b H]]].
      * now exists "", r.
      * exists (String c a), b. simpl. now rewrite H.
    + intros [a [b H]]. destruct a as [|x a]; simpl in H.
      * left. now exists b.
      * right. injection H as _ H. now exists a, b.
Qed.

Lemma for_keywords_spec kws s after :
  for_keywords kws s after = true <->
  after = true /\ forall k, In k kws -> ~ Py.Contains k s.
Proof.
  induction kws as [|k kws IH]; simpl.
  - split; [intros H; split; [exact H | intros ? []] | intros [H _]; exact H].
  - destruct (Py.contains k s) eqn:E.
    + split; [discriminate |].
      intros [_ H]. exfalso. apply (H k); [now left | now apply contains_spec].
    + rewrite IH. split.
      * intros [Ha H]. split; [exact Ha |].
        intros k' [<- | Hin]; [| now apply H].
        intros C. apply contains_spec in C. congruence.
      * intros [Ha H]. split; [exact Ha | intros k' Hin; apply H; now right].
Qed.

End StringFacts.

(** C1: the validator accepts a query exactly when its lowercased, trimmed
    text starts with [select] and contains none of the sixteen denylisted
    substrings; hence anything not starting with [select] is rejected and
    anything containing a denylisted substring is rejected.  Both copies of
    the validator behave so. *)
Theorem validate_sql_safety_iff (sql : string) :
  let s := Py.strip (Py.lower sql) in
  let ok := Py.StartsWith "select" s /\
            forall k, In k dangerous_keywords -> ~ Py.Contains k s in
  (Server_validator.validate_sql_safety sql = true <-> ok) /\
  (Direct_validator.validate_sql_safety sql = true <-> ok) /\
  (~ Py.StartsWith "select" s ->
     Server_validator.validate_sql_safety sql = false /\
     Direct_validator.validate_sql_safety sql = false) /\
  (forall k, In k dangerous_keywords -> Py.Contains k s ->
     Server_validator.validate_sql_safety sql = false /\
     Direct_validator.validate_sql_safety sql = false).
Proof.
  intros s ok.
  assert (Hsrv : Server_validator.validate_sql_safety sql = true <-> ok).
  { unfold Server_validator.validate_sql_safety. fold s.
    rewrite for_keywords_spec. unfold ok.
    destruct (Py.startswith "select" s) eqn:E; simpl.
    - apply startswith_spec in E. tauto.
    - split; [intros [H _]; discriminate |].
      intros [H _]. apply startswith_spec in H. congruence. }
  assert (Hdir : Direct_validator.validate_sql_safety sql = true <-> ok).
  { exact Hsrv. }
  split; [exact Hsrv |]. split; [exact Hdir |]. split.
  - intros Hn. split; apply not_true_is_false; intros H;
      [apply Hsrv in H | apply Hdir in H]; destruct H as [H _]; now apply Hn.
  - intros k Hin Hk. split; apply not_true_is_false; intros H;
      [apply Hsrv in H | apply Hdir in H]; destruct H as [_ H]; now apply (H k).
Qed.

(** The validator on a few statements: a plain SELECT in any case and with
    blanks around it passes; a column named [created_at], a trailing comment
    and a statement that is not a SELECT do not. *)
Example validate_accepts_select :
  Server_validator.validate_sql_safety "  SELECT name FROM employees  " = true.
Proof. reflexivity. Qed.

Example validate_rejects_created_at :
  Direct_validator.validate_sql_safety "select created_at from employees" = false.
Proof. reflexivity. Qed.

Example validate_rejects_comment :
  Server_validator.validate_sql_safety "select * from employees; --" = false.
Proof. reflexivity. Qed.

Example validate_rejects_pragma :
  Direct_validator.validate_sql_safety "pragma table_info(employees)" = false.
Proof. reflexivity. Qed.

(* ------------------------------------------------------------------ *)
(** ** Aggregates: the one-pass scan against the set-wise reading *)
(* ------------------------------------------------------------------ *)

Section AggregateFacts.

Lemma scan_filter where_ rows a :
  Sql.scan where_ rows a = Sql.scan (fun _ => true) (filter where_ rows) a.
Proof.
  revert a. induction rows as [|e rows IH]; intros a; simpl; [reflexivity |].
  destruct (where_ e); simpl; apply IH.
Qed.

Lemma scan_cnt es a :
  Sql.cnt (Sql.scan (fun _ => true) es a) = Sql.cnt a + Independent.count es.
Proof.
  unfold Independent.count. revert a.
  induction es as [|e es IH]; intros a; simpl Sql.scan.
  - simpl. lia.
  - rewrite IH. cbn [List.length]. destruct (Employee.salary e); cbn [Sql.step Sql.cnt]; lia.
Qed.

Lemma scan_nonnull es a :
  Sql.nonnull (Sql.scan (fun _ => true) es a) =
  Sql.nonnull a + Z.of_nat (List.length (Independent.salaries es)).
Proof.
  revert a. induction es as [|e es IH]; intros a; simpl Sql.scan.
  - simpl. lia.
  - rewrite IH. simpl Independent.salaries.
    destruct (Employee.salary e); cbn [Sql.step Sql.nonnull List.length]; lia.
Qed.

Lemma scan_total es a :
  Sql.total (Sql.scan (fun _ => true) es a) =
  fold_left PrimFloat.add (Independent.salaries es) (Sql.total a).
Proof.
  revert a. induction es as [|e es IH]; intros a; simpl Sql.scan; [reflexivity |].
  rewrite IH. simpl Independent.salaries.
  destruct (Employee.salary e); reflexivity.
Qed.

Lemma scan_least es a :
  Sql.least (Sql.scan (fun _ => true) es a) =
  fold_left Sql.step_min (Independent.salaries es) (Sql.least a).
Proof.
  revert a. induction es as [|e es IH]; intros a; simpl Sql.scan; [reflexivity |].
  rewrite IH. simpl Independent.salaries.
  destruct (Employee.salary e); reflexivity.
Qed.

Lemma scan_most es a :
  Sql.most (Sql.scan (fun _ => true) es a) =
  fold_left Sql.step_max (Independent.salaries es) (Sql.most a).
Proof.
  revert a. induction es as [|e es IH]; intros a; simpl Sql.scan; [reflexivity |].
  rewrite IH. simpl Independent.salaries.
  destruct (Employee.salary e); reflexivity.
Qed.

Lemma fold_step_min xs x :
  fold_left Sql.step_min xs (Some x) =
  Some (fold_left (fun m y => if PrimFloat.ltb y m then y else m) xs x).
Proof.
  revert x. induction xs as [|y xs IH]; intros x; simpl; [reflexivity |].
  destruct (PrimFloat.ltb y x); apply IH.
Qed.

Lemma fold_step_max xs x :
  fold_left Sql.step_max xs (Some x) =
  Some (fold_left (fun m y => if PrimFloat.ltb m y then y else m) xs x).
Proof.
  revert x. induction xs as [|y xs IH]; intros x; simpl; [reflexivity |].
  destruct (PrimFloat.ltb x y); apply IH.
Qed.

(** The statement's single row, read off the rows the WHERE clause keeps. *)
Lemma select_stats_spec where_ rows :
  let es := filter where_ rows in
  let xs := Independent.salaries es in
  Sql.select_stats where_ rows =
  [ Sql.VInt (Independent.count es);
    Sql.of_real (Independent.average xs);
    Sql.of_real (Independent.minimum xs);
    Sql.of_real (Independent.maximum xs) ].
Proof.
  intros es xs. unfold Sql.select_stats, Sql.finalize_avg.
  rewrite scan_filter. fold es.
  rewrite scan_cnt, scan_nonnull, scan_total, scan_least, scan_most. fold xs.
  cbn [Sql.acc0 Sql.cnt Sql.nonnull Sql.total Sql.least Sql.most].
  destruct xs as [|x xs'].
  - reflexivity.
  - cbn [fold_left Sql.step_min Sql.step_max].
    rewrite fold_step_min, fold_step_max.
    replace (0 + Z.of_nat (List.length (x :: xs')) =? 0) with false
      by (symmetry; apply Z.eqb_neq; cbn [List.length]; lia).
    reflexivity.
Qed.

End AggregateFacts.





(* ------------------------------------------------------------------ *)
(** ** Joins, identifiers and single-row lookups *)
(* ------------------------------------------------------------------ *)

Section JoinFacts.

Lemma left_join_one_fst ds e r :
  In r (Sql.left_join_one ds e) -> fst r = e.
Proof.
  unfold Sql.left_join_one.
  destruct (filter (Sql.on_department_id e) ds) as [|d ms].
  - intros [<- | []]. reflexivity.
  - intros H. apply in_map_iff in H. destruct H as [d' [<- _]]. reflexivity.
Qed.

Lemma left_join_fst es ds r :
  In r (Sql.left_join es ds) -> In (fst r) es.
Proof.
  unfold Sql.left_join. intros H. apply in_flat_map in H.
  destruct H as [e [He Hr]]. apply left_join_one_fst in Hr. now rewrite Hr.
Qed.

Lemma left_join_app es es' ds :
  Sql.left_join (es ++ es') ds = (Sql.left_join es ds ++ Sql.left_join es' ds)%list.
Proof. unfold Sql.left_join. apply flat_map_app. Qed.

Lemma filter_none {A} (f : A -> bool) (l : list A) :
  (forall x, In x l -> f x = false) -> filter f l = [].
Proof.
  induction l as [|x l IH]; intros H; simpl; [reflexivity |].
  rewrite (H x (or_introl eq_refl)). apply IH. intros y Hy. apply H. now right.
Qed.

Lemma lookup_missing es ds k :
  (forall e, In e es -> Employee.id e <> k) ->
  filter (fun r : Sql.joined => Employee.id (fst r) =? k) (Sql.left_join es ds) = [].
Proof.
  intros H. apply filter_none. intros r Hr.
  apply Z.eqb_neq, H. now apply left_join_fst with (ds := ds).
Qed.

Lemma find_missing es k :
  (forall e, In e es -> Employee.id e <> k) ->
  find (fun e => Employee.id e =? k) es = None.
Proof.
  induction es as [|e es IH]; intros H; simpl; [reflexivity |].
  replace (Employee.id e =? k) with false
    by (symmetry; apply Z.eqb_neq, H; now left).
  apply IH. intros e' He'. apply H. now right.
Qed.

Lemma fold_max_bounds l a :
  a <= fold_left Z.max l a /\ forall x, In x l -> x <= fold_left Z.max l a.
Proof.
  revert a. induction l as [|y l IH]; intros a; simpl.
  - split; [lia | intros x []].
  - destruct (IH (Z.max a y)) as [H1 H2]. split; [lia |].
    intros x [<- | Hx]; [lia | now apply H2].
Qed.

Lemma next_id_fresh ids i : In i ids -> i < Sql.next_id ids.
Proof.
  destruct ids as [|j rest]; [intros [] |].
  unfold Sql.next_id. destruct (fold_max_bounds rest j) as [H1 H2].
  intros [<- | Hi]; [lia |]. specialize (H2 i Hi). lia.
Qed.

(** Under the primary key of [departments], a reference selects one row. *)
Lemma filter_unique_department ds d :
  NoDup (map Department.id ds) -> In d ds ->
  filter (fun d' => Department.id d =? Department.id d') ds = [d].
Proof.
  induction ds as [|d0 ds IH]; intros Hnd Hin; [destruct Hin |].
  simpl in Hnd. apply NoDup_cons_iff in Hnd. destruct Hnd as [Hfresh Hnd].
  simpl. destruct Hin as [-> | Hin].
  - rewrite Z.eqb_refl. f_equal. apply filter_none. intros d' Hd'.
    apply Z.eqb_neq. intros E. apply Hfresh. rewrite E. now apply in_map.
  - replace (Department.id d =? Department.id d0) with false.
    + now apply IH.
    + symmetry. apply Z.eqb_neq. intros E. apply Hfresh. rewrite <- E. now apply in_map.
Qed.

End JoinFacts.

(** C5: for an identifier no employee row carries, the delete handler aborts
    with 404 and leaves the whole state as it was (both tables, nothing
    flashed, no success reported), and [get_employee] answers "not found":
    [None] from the directly-callable adapter, the text "Employee not found"
    from the protocol server. *)
Theorem missing_employee_not_found (db : Database) (employee_id : Z) :
  (forall e, In e (employees db) -> Employee.id e <> employee_id) ->
  (forall c, Web.working c = db ->
     Web.delete_employee employee_id c = (Web.abort 404, c)) /\
  (forall c, Web.persisted c = db ->
     let out := Web.serve (Web.delete_employee employee_id) c in
     fst out = Web.abort 404 /\
     Web.persisted (snd out) = db /\
     Web.flashes (snd out) = Web.flashes c) /\
  Direct.get_employee db employee_id = None /\
  (forall execute a, arg_employee_id a = Some employee_id ->
     Server.handle_call_tool execute db "get_employee" a =
     Return [Server.Message "Employee not found"]).
Proof.
  intros H.
  assert (D : forall c, Web.working c = db ->
            Web.delete_employee employee_id c = (Web.abort 404, c)).
  { intros c Hc. unfold Web.delete_employee, Web.query_get.
    rewrite Hc, (find_missing _ _ H). reflexivity. }
  split; [exact D |]. split; [| split].
  - intros c Hc out. unfold out, Web.serve.
    rewrite (D (Web.teardown c)) by (simpl; exact Hc).
    simpl. repeat split; exact Hc.
  - unfold Direct.get_employee. now rewrite (lookup_missing _ _ _ H).
  - intros execute a Ha. unfold Server.handle_call_tool.
    cbn [String.eqb Ascii.eqb Bool.eqb]. rewrite Ha.
    now rewrite (lookup_missing _ _ _ H).
Qed.

(** [missing_employee_not_found] at identifier 7 of a one-row table. *)
Lemma missing_employee_not_found_witness :
  let db :=
    {| employees := [Employee.mk 1 "Ada" None None None];
       departments := [] |} in
  Direct.get_employee db 7 = None.
Proof.
  intros db.
  refine (proj1 (proj2 (proj2 (missing_employee_not_found db 7 _)))).
  intros e [<- | []]. simpl. lia.
Defined.

(* ------------------------------------------------------------------ *)
(** ** The web handlers *)
(* ------------------------------------------------------------------ *)

Lemma or_None_nonempty text : text <> "" -> Py.or_None (Some text) = Some text.
Proof. destruct text; [congruence | reflexivity]. Qed.

(** C9: an edit submission whose salary text is non-empty and does not read
    as a number commits nothing -- the committed tables are exactly as
    before, in the handler and after the request -- and, the employee being
    there, the edit page is rendered again with the error "Invalid salary
    format" flashed. *)
Theorem edit_employee_invalid_salary
    (py_float : string -> option float) (c : Web.ctx)
    (employee_id : Z) (form : Web.Form) (text : string) :
  Web.form_salary form = Some text -> text <> "" -> py_float text = None ->
  let handler := Web.edit_employee py_float employee_id Web.POST form in
  Web.persisted (snd (handler c)) = Web.persisted c /\
  Web.persisted (snd (Web.serve handler c)) = Web.persisted c /\
  Web.working (snd (Web.serve handler c)) = Web.persisted c /\
  (forall e, Web.query_get employee_id (Web.teardown c) = Some e ->
     fst (Web.serve handler c) = Web.render_template "employees/edit.html" /\
     Web.flashes (snd (Web.serve handler c)) =
       (Web.flashes c ++ [("error", "Invalid salary format")])%list).
Proof.
  intros Hs Hne Hp handler.
  assert (E : forall c0,
            handler c0 = (Web.abort 404, c0) \/
            (exists e, Web.query_get employee_id c0 = Some e) /\
            fst (handler c0) = Web.render_template "employees/edit.html" /\
            Web.persisted (snd (handler c0)) = Web.persisted c0 /\
            Web.flashes (snd (handler c0)) =
              (Web.flashes c0 ++ [("error", "Invalid salary format")])%list).
  { intros c0. unfold handler, Web.edit_employee.
    destruct (Web.query_get employee_id c0) as [e|]; [right | now left].
    split; [now exists e |].
    rewrite Hs, (or_None_nonempty _ Hne), Hp. simpl. repeat split. }
  split; [| split; [| split]].
  - destruct (E c) as [-> | [_ [_ [H _]]]]; [reflexivity | exact H].
  - unfold Web.serve.
    destruct (handler (Web.teardown c)) as [r c'] eqn:Hh. simpl.
    destruct (E (Web.teardown c)) as [H | [_ [_ [H _]]]]; rewrite Hh in H.
    + injection H as _ ->. reflexivity.
    + exact H.
  - unfold Web.serve.
    destruct (handler (Web.teardown c)) as [r c'] eqn:Hh. simpl.
    destruct (E (Web.teardown c)) as [H | [_ [_ [H _]]]]; rewrite Hh in H.
    + injection H as _ ->. reflexivity.
    + exact H.
  - intros e He. unfold Web.serve.
    destruct (handler (Web.teardown c)) as [r c'] eqn:Hh. simpl.
    destruct (E (Web.teardown c)) as [H | [_ [H1 [_ H2]]]]; [| rewrite Hh in *].
    + exfalso. unfold handler, Web.edit_employee in H. rewrite He in H.
      rewrite Hs, (or_None_nonempty _ Hne), Hp in H. discriminate.
    + split; [exact H1 | exact H2].
Qed.

(** [edit_employee_invalid_salary] on the salary text "12k". *)
Lemma edit_employee_invalid_salary_witness :
  let db :=
    {| employees := [Employee.mk 1 "Ada" None (Some 10%float) None];
       departments := [] |} in
  let c := {| Web.persisted := db; Web.working := db; Web.flashes := [] |} in
  let form :=
    {| Web.form_name := "Eve"; Web.form_department_id := Some 3;
       Web.form_salary := Some "12k"; Web.form_hire_date := Some "2024-02-01" |} in
  Web.persisted (snd (Web.edit_employee float_of_digits 1 Web.POST form c)) = db.
Proof.
  intros db c form.
  refine (proj1 (edit_employee_invalid_salary float_of_digits c 1 form "12k" _ _ _)).
  - reflexivity.
  - discriminate.
  - reflexivity.
Defined.

(** C4: an employee created from a form with a name, the identifier of an
    existing department, a salary text that reads as a number and a hire-date
    text comes back, under the identifier the table assigned, with exactly
    those four values and the name of the referenced department -- from
    either adapter. *)
Theorem create_then_get_employee
    (py_float : string -> option float) (c : Web.ctx)
    (name : string) (k : Z) (dname : string)
    (text : string) (x : float) (hire_date : string) :
  NoDup (map Department.id (departments (Web.persisted c))) ->
  In (Department.mk k dname) (departments (Web.persisted c)) ->
  text <> "" -> py_float text = Some x -> PrimFloat.is_nan x = false ->
  hire_date <> "" ->
  let form :=
    {| Web.form_name := name; Web.form_department_id := Some k;
       Web.form_salary := Some text; Web.form_hire_date := Some hire_date |} in
  let new_id := Sql.next_id (map Employee.id (employees (Web.persisted c))) in
  let out := Web.serve (Web.create_employee py_float Web.POST form) c in
  let row : Dict :=
    [ ("id", Sql.VInt new_id); ("name", Sql.VText name);
      ("department_id", Sql.VInt k); ("department_name", Sql.VText dname);
      ("salary", Sql.VReal x); ("hire_date", Sql.VText hire_date) ] in
  fst out = Web.redirect "main.list_employees" /\
  Direct.get_employee (Web.persisted (snd out)) new_id = Some row /\
  (forall execute a, arg_employee_id a = Some new_id ->
     Server.handle_call_tool execute (Web.persisted (snd out)) "get_employee" a =
     Return [Server.Dumps (Server.JDict row)]).
Proof.
  intros Hnd Hin Ht Hp Hnan Hh form new_id out row.
  set (db := Web.persisted c) in *.
  set (e := Employee.mk new_id name (Some k) (Some x) (Some hire_date)).
  assert (O : out = (Web.redirect "main.list_employees",
                     {| Web.persisted :=
                          {| employees := (employees db ++ [e])%list;
                             departments := departments db |};
                        Web.working :=
                          {| employees := (employees db ++ [e])%list;
                             departments := departments db |};
                        Web.flashes :=
                          (Web.flashes c ++
                           [("success", "Employee created successfully!")])%list |})).
  { unfold out, Web.serve, Web.create_employee, form. cbn [Web.form_salary Web.form_hire_date
      Web.form_name Web.form_department_id].
    rewrite (or_None_nonempty _ Ht), (or_None_nonempty _ Hh), Hp.
    unfold Web.session_add, Sql.store_real. rewrite Hnan. reflexivity. }
  assert (L : map Sql.employee_row
                (filter (fun r : Employee.t * option Department.t =>
                           Employee.id (fst r) =? new_id)
                   (Sql.left_join (employees db ++ [e]) (departments db))) =
              [Sql.employee_row (e, Some (Department.mk k dname))]).
  { rewrite left_join_app, filter_app.
    rewrite lookup_missing.
    - cbn [Sql.left_join flat_map app]. rewrite app_nil_r.
      unfold Sql.left_join_one.
      replace (filter (Sql.on_department_id e) (departments db))
        with [Department.mk k dname].
      + cbn [map filter fst Employee.id e]. fold new_id.
        unfold e. cbn [Employee.id]. now rewrite Z.eqb_refl.
      + symmetry. apply (filter_unique_department _ (Department.mk k dname) Hnd Hin).
    - intros e' He' E.
      assert (Hlt : Employee.id e' < new_id)
        by (apply next_id_fresh; now apply in_map).
      lia. }
  rewrite O. cbn [fst snd Web.persisted]. unfold Direct.get_employee, Server.handle_call_tool.
  cbn [employees departments].
  split; [reflexivity |]. split.
  - unfold Direct.get_employee. rewrite L. reflexivity.
  - intros execute a Ha. unfold Server.handle_call_tool.
    cbn [String.eqb Ascii.eqb Bool.eqb]. rewrite Ha, L. reflexivity.
Qed.

(** [create_then_get_employee] for "Ada" in department 1, salary "120000". *)
Lemma create_then_get_employee_witness :
  let db :=
    {| employees := [Employee.mk 4 "Bob" None None None];
       departments := [Department.mk 1 "Engineering"] |} in
  let c := {| Web.persisted := db; Web.working := db; Web.flashes := [] |} in
  let form :=
    {| Web.form_name := "Ada"; Web.form_department_id := Some 1;
       Web.form_salary := Some "120000";
       Web.form_hire_date := Some "2023-01-15" |} in
  Direct.get_employee
    (Web.persisted (snd (Web.serve (Web.create_employee float_of_digits Web.POST form) c)))
    5 =
  Some [ ("id", Sql.VInt 5); ("name", Sql.VText "Ada");
         ("department_id", Sql.VInt 1); ("department_name", Sql.VText "Engineering");
         ("salary", Sql.VReal 120000%float); ("hire_date", Sql.VText "2023-01-15") ].
Proof.
  intros db c form.
  refine (proj1 (proj2
    (create_then_get_employee float_of_digits c "Ada" 1 "Engineering"
       "120000" 120000%float "2023-01-15" _ _ _ _ _ _))).
  - simpl. constructor; [intros [] | constructor].
  - simpl. left. reflexivity.
  - discriminate.
  - vm_compute. reflexivity.
  - vm_compute. reflexivity.
  - discriminate.
Defined.

(* ------------------------------------------------------------------ *)
(** ** ORDER BY and LIMIT *)
(* ------------------------------------------------------------------ *)

Section OrderFacts.

Context {A : Type} (key : A -> Z).

Lemma insert_by_in r rows x :
  In x (Sql.insert_by key r rows) -> x = r \/ In x rows.
Proof.
  induction rows as [|r' rows IH]; simpl.
  - intros [<- | []]. now left.
  - destruct (key r <=? key r').
    + intros [<- | H]; [now left | now right].
    + intros [<- | H]; [right; now left |].
      destruct (IH H) as [-> | H']; [now left | right; now right].
Qed.

Lemma insert_by_sorted r rows :
  StronglySorted Z.le (map key rows) ->
  StronglySorted Z.le (map key (Sql.insert_by key r rows)).
Proof.
  induction rows as [|r' rows IH]; intros Hs; simpl.
  - constructor; constructor.
  - destruct (key r <=? key r') eqn:E.
    + apply Z.leb_le in E. simpl. constructor; [exact Hs |].
      inversion Hs as [|? ? _ Hall]; subst.
      constructor; [exact E |].
      eapply Forall_impl; [| exact Hall]. intros; lia.
    + apply Z.leb_gt in E. simpl.
      inversion Hs as [|? ? Hs' Hall]; subst.
      constructor; [now apply IH |].
      apply Forall_forall. intros k Hk.
      apply in_map_iff in Hk. destruct Hk as [x [<- Hx]].
      apply insert_by_in in Hx. destruct Hx as [-> | Hx]; [lia |].
      rewrite Forall_forall in Hall. apply Hall. now apply in_map.
Qed.

Lemma order_by_sorted rows :
  StronglySorted Z.le (map key (Sql.order_by key rows)).
Proof.
  unfold Sql.order_by. induction rows as [|r rows IH]; simpl.
  - constructor.
  - now apply insert_by_sorted.
Qed.

Lemma firstn_sorted (n : nat) (ks : list Z) :
  StronglySorted Z.le ks -> StronglySorted Z.le (firstn n ks).
Proof.
  revert ks. induction n as [|n IH]; intros ks Hs; simpl; [constructor |].
  destruct ks as [|k ks]; [constructor |].
  inversion Hs as [|? ? Hs' Hall]; subst.
  constructor; [now apply IH |].
  apply Forall_forall. intros x Hx. rewrite Forall_forall in Hall.
  apply Hall. revert Hx. clear. revert ks.
  induction n as [|n IH]; intros [|y ks]; simpl; try tauto.
  intros [-> | H]; [now left | right; now apply IH].
Qed.

Lemma limit_sorted n rows :
  StronglySorted Z.le (map key rows) ->
  StronglySorted Z.le (map key (Sql.limit n rows)).
Proof.
  unfold Sql.limit. destruct (n <? 0); [trivial |].
  intros Hs. rewrite <- firstn_map. now apply firstn_sorted.
Qed.

Lemma limit_length n (rows : list A) :
  0 <= n -> Z.of_nat (List.length (Sql.limit n rows)) <= n.
Proof.
  intros Hn. unfold Sql.limit.
  replace (n <? 0) with false by (symmetry; apply Z.ltb_ge; lia).
  pose proof (firstn_le_length (Z.to_nat n) rows) as H. lia.
Qed.

End OrderFacts.

Lemma employee_rows_ids (rs : list Sql.joined) :
  map row_id (map (dict_zip Sql.employee_columns) (map Sql.employee_row rs)) =
  map Some (map (fun r => Employee.id (fst r)) rs).
Proof.
  induction rs as [|r rs IH]; simpl; [reflexivity |].
  f_equal. exact IH.
Qed.

(** C6, as the code has it: with no [limit] argument the limit is 100; the
    rows come in ascending order of employee identifier; a limit that is not
    negative bounds the number of rows (so at most 100 by default), and a
    negative one puts no bound.  Neither adapter caps the limit at 1000. *)
Theorem list_employees_limit_and_order :
  (forall db, Direct.list_employees db None = Direct.list_employees db (Some 100)) /\
  (forall execute db a,
     Server.handle_call_tool execute db "list_employees" a =
     Return [Server.Dumps (Server.JList
       (Direct.list_employees db (Some (default 100 (arg_limit a)))))]) /\
  (forall db limit, ordered_by_id (Direct.list_employees db limit)) /\
  (forall db n, 0 <= n ->
     Z.of_nat (List.length (Direct.list_employees db (Some n))) <= n) /\
  (forall db, Z.of_nat (List.length (Direct.list_employees db None)) <= 100) /\
  (forall db n, n < 0 ->
     List.length (Direct.list_employees db (Some n)) =
     List.length (Sql.left_join (employees db) (departments db))).
Proof.
  assert (B : forall db n, 0 <= n ->
            Z.of_nat (List.length (Direct.list_employees db (Some n))) <= n).
  { intros db n Hn. unfold Direct.list_employees.
    rewrite !length_map. now apply limit_length. }
  split; [reflexivity |]. split; [reflexivity |]. split; [| split; [exact B | split]].
  - intros db limit. unfold Direct.list_employees, ordered_by_id.
    eexists. split; [apply employee_rows_ids |].
    apply limit_sorted, order_by_sorted.
  - intros db. apply (B db 100). lia.
  - intros db n Hn. unfold Direct.list_employees, Sql.limit. cbn [default].
    rewrite !length_map. apply Z.ltb_lt in Hn. rewrite Hn.
    unfold Sql.order_by.
    induction (Sql.left_join (employees db) (departments db)) as [|r rs IH];
      [reflexivity |].
    simpl. rewrite <- IH. clear.
    induction (fold_right (Sql.insert_by (fun r0 => Employee.id (fst r0))) [] rs)
      as [|r' l IH]; simpl; [reflexivity |].
    destruct (_ <=? _); simpl; [reflexivity | now rewrite IH].
Qed.

(** [list_employees_limit_and_order]: a limit of 2 on a table of five. *)
Lemma list_employees_limit_and_order_witness :
  Z.of_nat (List.length (Direct.list_employees (staff 5) (Some 2))) <= 2.
Proof.
  refine (proj1 (proj2 (proj2 (proj2 list_employees_limit_and_order))) (staff 5) 2 _).
  lia.
Defined.

(** C6 as stated fails: on a table of 1001 employees a limit of 5000 brings
    back all 1001 rows, from either adapter. *)
Lemma list_employees_exceeds_1000 :
  List.length (Direct.list_employees (staff 1001) (Some 5000)) = 1001%nat /\
  List.length (server_rows
     (Server.handle_call_tool no_engine (staff 1001) "list_employees"
        (with_limit 5000))) = 1001%nat.
Proof.
  split; vm_compute; reflexivity.
Qed.

(** C8, at the input where the code breaks it: the statement
    [select x'41' as b] passes the validator and the engine answers with one
    row holding bytes.  The directly-callable adapter returns that row; the
    protocol server raises [TypeError] from [json.dumps], which its
    [except sqlite3.Error] does not catch, and carries no row. *)
Theorem safe_query_bytes_break_agreement (db : Database) :
  Server_validator.validate_sql_safety blob_statement = true /\
  Direct.call blob_engine db "safe_query" blob_arguments =
    Return (Direct.RList [[("b", Sql.VBlob "A")]]) /\
  Server.handle_call_tool blob_engine db "safe_query" blob_arguments =
    Raise "TypeError" "Object of type bytes is not JSON serializable" /\
  direct_rows (Direct.call blob_engine db "safe_query" blob_arguments) =
    [[("b", Sql.VBlob "A")]] /\
  server_rows (Server.handle_call_tool blob_engine db "safe_query" blob_arguments) = [].
Proof. repeat split. Qed.

(** X25: the two adapters carry the same result rows on each of the six
    operations whenever the rows of a free-text statement can be rendered as
    JSON, that is, hold no bytes. *)
Theorem adapters_agree_without_bytes
    (execute : Database -> string -> Sql.executed)
    (db : Database) (name : string) (a : Arguments) :
  In name operations ->
  (forall q columns rows,
     arg_query a = Some q -> execute db q = Sql.Rows columns rows ->
     json_serializable (map (dict_zip columns) rows) = true) ->
  server_rows (Server.handle_call_tool execute db name a) =
  direct_rows (Direct.call execute db name a).
Proof.
  unfold operations. intros H J.
  repeat (destruct H as [<- | H]); [ .. | destruct H ];
    unfold Server.handle_call_tool, Direct.call;
    cbn [String.eqb Ascii.eqb Bool.eqb].
  - reflexivity.
  - destruct (arg_employee_id a) as [i|]; [| reflexivity].
    unfold Direct.get_employee.
    destruct (fetchone _); reflexivity.
  - reflexivity.
  - reflexivity.
  - reflexivity.
  - destruct (arg_query a) as [q|]; [| reflexivity].
    unfold Direct.safe_query, Direct.validate_sql_safety, Server.validate_sql_safety.
    replace (Direct_validator.validate_sql_safety q)
      with (Server_validator.validate_sql_safety q) by reflexivity.
    destruct (Server_validator.validate_sql_safety q); cbn [negb]; [| reflexivity].
    destruct (execute db q) as [columns rows|e] eqn:E; [| reflexivity].
    now rewrite (J q columns rows eq_refl E).
Qed.

(** [adapters_agree_without_bytes] on a search by name. *)
Lemma adapters_agree_without_bytes_witness :
  let db :=
    {| employees := [Employee.mk 1 "Ada" (Some 1) None None];
       departments := [Department.mk 1 "Engineering"] |} in
  let a :=
    {| arg_limit := None; arg_employee_id := None; arg_name := Some "da";
       arg_department := None; arg_department_id := None; arg_query := None |} in
  server_rows (Server.handle_call_tool no_engine db "search_employees" a) =
  direct_rows (Direct.call no_engine db "search_employees" a).
Proof.
  intros db a.
  apply (adapters_agree_without_bytes no_engine db "search_employees" a).
  - simpl. tauto.
  - intros q columns rows H. discriminate.
Defined.

(* ------------------------------------------------------------------ *)
(** ** LIKE *)
(* ------------------------------------------------------------------ *)

Section LikeFacts.

Lemma like_percent p s :
  Sql.like (String "%" p) s =
  Sql.like p s ||
  match s with
  | EmptyString => false
  | String _ s' => Sql.like (String "%" p) s'
  end.
Proof. destruct s; reflexivity. Qed.

Lemma lower_char_percent c :
  Ascii.eqb (Py.lower_char c) "%" = Ascii.eqb c "%".
Proof. destruct c as [[] [] [] [] [] [] [] []]; reflexivity. Qed.

Lemma lower_char_underscore c :
  Ascii.eqb (Py.lower_char c) "_" = Ascii.eqb c "_".
Proof. destruct c as [[] [] [] [] [] [] [] []]; reflexivity. Qed.

Lemma lower_char_idem c : Py.lower_char (Py.lower_char c) = Py.lower_char c.
Proof. destruct c as [[] [] [] [] [] [] [] []]; reflexivity. Qed.

(** LIKE does not see the case of ASCII letters, in the pattern or the text. *)
Lemma like_lower p s : Sql.like p s = Sql.like (Py.lower p) (Py.lower s).
Proof.
  revert s. induction p as [|c p IH]; intros s.
  - destruct s; reflexivity.
  - destruct (Ascii.eqb c "%") eqn:E.
    + apply Ascii.eqb_eq in E. subst c.
      change (Py.lower (String "%" p)) with (String "%"%char (Py.lower p)).
      induction s as [|d s IHs].
      * rewrite !like_percent. simpl Py.lower. now rewrite (IH "").
      * rewrite like_percent. simpl Py.lower.
        rewrite (like_percent (Py.lower p)). rewrite IHs.
        now rewrite (IH (String d s)).
    + simpl Py.lower. cbn [Sql.like]. rewrite lower_char_percent, E.
      destruct s as [|d s]; [reflexivity |].
      simpl Py.lower. cbv beta iota. rewrite lower_char_underscore, !lower_char_idem.
      now rewrite (IH s).
Qed.

Lemma like_any s : Sql.like "%" s = true.
Proof.
  induction s as [|c s IH]; [reflexivity |].
  rewrite like_percent. rewrite IH. apply orb_true_r.
Qed.

(** A wildcard-free text followed by [%] is a prefix test up to case. *)
Lemma like_prefix f t :
  no_wildcard f = true ->
  Sql.like (f ++ "%") t = Py.startswith (Py.lower f) (Py.lower t).
Proof.
  revert t. induction f as [|c f IH]; intros t Hf.
  - simpl. apply like_any.
  - simpl in Hf. apply andb_true_iff in Hf. destruct Hf as [Hc Hf].
    apply andb_true_iff in Hc. destruct Hc as [Hp Hu].
    apply negb_true_iff in Hp. apply negb_true_iff in Hu.
    cbn [append Sql.like]. rewrite Hp.
    destruct t as [|d t]; [reflexivity |].
    rewrite Hu. simpl. now rewrite IH.
Qed.

(** Wrapped in [%], a wildcard-free text is a substring test up to case. *)
Lemma like_contains f s :
  no_wildcard f = true ->
  Sql.like ("%" ++ f ++ "%") s = Py.contains (Py.lower f) (Py.lower s).
Proof.
  intros Hf. change ("%" ++ f ++ "%") with (String "%"%char (f ++ "%")).
  induction s as [|c s IH].
  - rewrite like_percent, like_prefix by exact Hf. reflexivity.
  - rewrite like_percent, like_prefix by exact Hf. rewrite IH. reflexivity.
Qed.

Lemma lower_nonempty s : Py.truthy_str (Py.lower s) = Py.truthy_str s.
Proof. destruct s; reflexivity. Qed.

Lemma lower_append a b : Py.lower (a ++ b) = Py.lower a ++ Py.lower b.
Proof. induction a as [|c a IH]; simpl; [reflexivity | now rewrite IH]. Qed.

End LikeFacts.

Lemma wrapped_like_case n1 n2 s :
  Py.lower n1 = Py.lower n2 ->
  Sql.like ("%" ++ n1 ++ "%") s = Sql.like ("%" ++ n2 ++ "%") s.
Proof.
  intros H.
  rewrite (like_lower ("%" ++ n1 ++ "%")), (like_lower ("%" ++ n2 ++ "%")).
  change ("%" ++ n1 ++ "%") with (String "%"%char (n1 ++ "%")).
  change ("%" ++ n2 ++ "%") with (String "%"%char (n2 ++ "%")).
  simpl Py.lower. now rewrite !lower_append, H.
Qed.

Lemma truthy_case n1 n2 :
  Py.lower n1 = Py.lower n2 -> Py.truthy_str n1 = Py.truthy_str n2.
Proof. intros H. now rewrite <- (lower_nonempty n1), <- (lower_nonempty n2), H. Qed.

(** The rows a search keeps, for two pairs of filters equal up to case. *)
Lemma search_where_case n1 n2 d1 d2 (rs : list Sql.joined) :
  Py.lower n1 = Py.lower n2 -> Py.lower d1 = Py.lower d2 ->
  filter (fun r : Employee.t * option Department.t =>
            (if Py.truthy_str n1
             then Sql.like ("%" ++ n1 ++ "%") (Employee.name (fst r)) else true) &&
            (if Py.truthy_str d1
             then Sql.like_nullable ("%" ++ d1 ++ "%") (Sql.department_name r)
             else true)) rs =
  filter (fun r : Employee.t * option Department.t =>
            (if Py.truthy_str n2
             then Sql.like ("%" ++ n2 ++ "%") (Employee.name (fst r)) else true) &&
            (if Py.truthy_str d2
             then Sql.like_nullable ("%" ++ d2 ++ "%") (Sql.department_name r)
             else true)) rs.
Proof.
  intros Hn Hd. apply filter_ext. intros r.
  rewrite (truthy_case _ _ Hn), (truthy_case _ _ Hd).
  rewrite (wrapped_like_case _ _ _ Hn).
  unfold Sql.like_nullable. destruct (Sql.department_name r) as [dn|]; [| reflexivity].
  now rewrite (wrapped_like_case _ _ dn Hd).
Qed.

(** C7 as stated fails: the name "Ada" contains the filter "ada" only with a
    different letter case, and the row is returned all the same; likewise
    for the department filter "ENGINEERING". *)
Lemma search_employees_case_differs :
  Py.contains "ada" "Ada" = false /\
  Py.contains "ENGINEERING" "Engineering" = false /\
  Direct.search_employees ada_db (Some "ada") None None = [ada_row] /\
  Direct.search_employees ada_db None (Some "ENGINEERING") None = [ada_row] /\
  server_rows (Server.handle_call_tool no_engine ada_db "search_employees"
                 (search_arguments "ada" "ENGINEERING")) = [ada_row].
Proof. repeat split; vm_compute; reflexivity. Qed.

(* ------------------------------------------------------------------ *)
(** ** What a search brings back *)
(* ------------------------------------------------------------------ *)

Section SearchFacts.

Lemma limit_in {A} n (rows : list A) x : In x (Sql.limit n rows) -> In x rows.
Proof.
  unfold Sql.limit. destruct (n <? 0); [trivial |].
  revert rows. induction (Z.to_nat n) as [|m IH]; intros [|y rows]; simpl; try tauto.
  intros [-> | H]; [now left | right; now apply IH].
Qed.

Lemma order_by_in {A} (key : A -> Z) rows x :
  In x (Sql.order_by key rows) -> In x rows.
Proof.
  unfold Sql.order_by. induction rows as [|r rows IH]; simpl; [trivial |].
  intros H. apply insert_by_in in H. destruct H as [-> | H]; [now left | right; now apply IH].
Qed.

(** Every row of a search comes from a joined row that passes the WHERE
    clause. *)
Lemma search_row_origin db name department limit row :
  In row (Direct.search_employees db (Some name) (Some department) limit) ->
  exists r : Sql.joined,
    row = dict_zip Sql.employee_columns (Sql.employee_row r) /\
    (if Py.truthy_str name
     then Sql.like ("%" ++ name ++ "%") (Employee.name (fst r)) else true) = true /\
    (if Py.truthy_str department
     then Sql.like_nullable ("%" ++ department ++ "%") (Sql.department_name r)
     else true) = true.
Proof.
  unfold Direct.search_employees. cbn [default]. intros H.
  apply in_map_iff in H. destruct H as [v [<- H]].
  apply in_map_iff in H. destruct H as [r [<- H]].
  apply limit_in, order_by_in, filter_In in H. destruct H as [_ H].
  apply andb_true_iff in H. exists r. split; [reflexivity | exact H].
Qed.

End SearchFacts.

(** C2, as the code has it: with both filters non-empty, every returned row
    has a name matching [%name%] and a department name matching
    [%department%] under LIKE -- both at once -- and, where a filter has no
    wildcard, the text contains it as a substring up to the case of ASCII
    letters.  The protocol server returns the same rows. *)
Theorem search_employees_both_filters
    (db : Database) (name department : string) (limit : option Z) (row : Dict) :
  name <> "" -> department <> "" ->
  In row (Direct.search_employees db (Some name) (Some department) limit) ->
  (exists n dn,
     row_text "name" row = Some n /\
     row_text "department_name" row = Some dn /\
     Sql.like ("%" ++ name ++ "%") n = true /\
     Sql.like ("%" ++ department ++ "%") dn = true /\
     (no_wildcard name = true ->
        Py.contains (Py.lower name) (Py.lower n) = true) /\
     (no_wildcard department = true ->
        Py.contains (Py.lower department) (Py.lower dn) = true)) /\
  (forall execute a,
     arg_name a = Some name -> arg_department a = Some department ->
     arg_limit a = limit ->
     Server.handle_call_tool execute db "search_employees" a =
     Return [Server.Dumps (Server.JList
       (Direct.search_employees db (Some name) (Some department) limit))]).
Proof.
  intros Hn Hd Hin. split.
  - apply search_row_origin in Hin. destruct Hin as [r [-> [H1 H2]]].
    destruct name as [|c0 name']; [congruence |].
    destruct department as [|c1 department']; [congruence |].
    cbn [Py.truthy_str] in H1, H2.
    unfold Sql.like_nullable in H2.
    destruct (Sql.department_name r) as [dn|] eqn:Edn; [| discriminate].
    exists (Employee.name (fst r)), dn.
    split; [reflexivity |].
    split; [unfold row_text; cbn; unfold Sql.employee_row; now rewrite Edn |].
    split; [exact H1 |]. split; [exact H2 |]. split.
    + intros W. now rewrite <- like_contains.
    + intros W. now rewrite <- like_contains.
  - intros execute a Ha1 Ha2 Ha3. unfold Server.handle_call_tool.
    cbn [String.eqb Ascii.eqb Bool.eqb]. rewrite Ha1, Ha2, Ha3. reflexivity.
Qed.

(** [search_employees_both_filters] on the filters "da" and "gin". *)
Lemma search_employees_both_filters_witness :
  exists n dn,
    row_text "name" ada_row = Some n /\
    row_text "department_name" ada_row = Some dn /\
    Sql.like "%da%" n = true /\
    Sql.like "%gin%" dn = true /\
    (no_wildcard "da" = true -> Py.contains (Py.lower "da") (Py.lower n) = true) /\
    (no_wildcard "gin" = true -> Py.contains (Py.lower "gin") (Py.lower dn) = true).
Proof.
  refine (proj1 (search_employees_both_filters ada_db "da" "gin" None ada_row _ _ _)).
  - discriminate.
  - discriminate.
  - vm_compute. left. reflexivity.
Defined.

(** C2 as stated fails: the search for name "ADA" and department "eng%"
    returns Ada of Engineering, whose name does not contain "ADA" and whose
    department name does not contain "eng%". *)
Lemma search_employees_not_plain_substring :
  In ada_row (Direct.search_employees ada_db (Some "ADA") (Some "eng%") None) /\
  row_text "name" ada_row = Some "Ada" /\
  row_text "department_name" ada_row = Some "Engineering" /\
  Py.contains "ADA" "Ada" = false /\
  Py.contains "eng%" "Engineering" = false.
Proof. repeat split; vm_compute; auto. Qed.

(* ================================================================== *)
(** * Further properties of the code *)
(* ================================================================== *)

(* ------------------------------------------------------------------ *)
(** ** The validator on raw statements *)
(* ------------------------------------------------------------------ *)

Section ValidatorFacts.

Lemma is_space_lower c : Py.is_space (Py.lower_char c) = Py.is_space c.
Proof. destruct c as [[] [] [] [] [] [] [] []]; reflexivity. Qed.

Lemma lower_idem s : Py.lower (Py.lower s) = Py.lower s.
Proof.
  induction s as [|c s IH]; simpl; [reflexivity |].
  now rewrite lower_char_idem, IH.
Qed.

Lemma lower_lstrip s : Py.lower (Py.lstrip s) = Py.lstrip (Py.lower s).
Proof.
  induction s as [|c s IH]; simpl; [reflexivity |].
  rewrite is_space_lower. destruct (Py.is_space c); [exact IH | reflexivity].
Qed.

Lemma lower_rstrip s : Py.lower (Py.rstrip s) = Py.rstrip (Py.lower s).
Proof.
  induction s as [|c s IH]; simpl; [reflexivity |].
  rewrite <- IH, is_space_lower.
  destruct (Py.rstrip s) as [|d r]; simpl.
  - destruct (Py.is_space c); reflexivity.
  - reflexivity.
Qed.

Lemma lower_strip s : Py.lower (Py.strip s) = Py.strip (Py.lower s).
Proof. unfold Py.strip. now rewrite lower_rstrip, lower_lstrip. Qed.

Lemma rstrip_cons c s :
  Py.rstrip (String c s) =
  match Py.rstrip s with
  | EmptyString => if Py.is_space c then EmptyString else String c EmptyString
  | String d r => String c (String d r)
  end.
Proof. reflexivity. Qed.

Lemma rstrip_idem s : Py.rstrip (Py.rstrip s) = Py.rstrip s.
Proof.
  induction s as [|c s IH]; [reflexivity |].
  rewrite (rstrip_cons c s).
  destruct (Py.rstrip s) as [|d r] eqn:E.
  - destruct (Py.is_space c) eqn:Ec; [reflexivity |].
    rewrite rstrip_cons. simpl. now rewrite Ec.
  - rewrite rstrip_cons, IH. reflexivity.
Qed.

(** A text that does not begin with white space keeps its first character
    under [rstrip]. *)
Lemma lstrip_rstrip_lstrip s :
  Py.lstrip (Py.rstrip (Py.lstrip s)) = Py.rstrip (Py.lstrip s).
Proof.
  induction s as [|c s IH]; [reflexivity |].
  cbn [Py.lstrip]. destruct (Py.is_space c) eqn:Ec; [exact IH |].
  rewrite rstrip_cons.
  destruct (Py.rstrip s) as [|d r]; rewrite ?Ec; cbn [Py.lstrip]; now rewrite Ec.
Qed.

Lemma strip_idem s : Py.strip (Py.strip s) = Py.strip s.
Proof.
  unfold Py.strip. now rewrite lstrip_rstrip_lstrip, rstrip_idem.
Qed.

End ValidatorFacts.

Section KeywordFacts.

Lemma contains_lstrip k s :
  k <> "" -> no_space k -> Py.Contains k s -> Py.Contains k (Py.lstrip s).
Proof.
  intros Hk Hns. induction s as [|c s IH]; intros [a [b H]]; [now exists a, b |].
  cbn [Py.lstrip]. destruct (Py.is_space c) eqn:Ec; [| now exists a, b].
  apply IH. destruct a as [|x a]; simpl in H.
  - destruct k as [|y k]; [congruence |]. simpl in H. injection H as -> _.
    rewrite (Hns "" y k eq_refl) in Ec. discriminate.
  - injection H as _ H. now exists a, b.
Qed.

Lemma rstrip_keeps_prefix k b :
  no_space k -> exists r, Py.rstrip (k ++ b) = k ++ r.
Proof.
  induction k as [|c k IH]; intros Hns; simpl.
  - now exists (Py.rstrip b).
  - fold (Py.rstrip (k ++ b)).
    destruct IH as [r Hr].
    { intros a x y E. apply (Hns (String c a) x y). simpl. now rewrite E. }
    rewrite Hr. rewrite (Hns "" c k eq_refl).
    destruct (k ++ r) as [|d t] eqn:E.
    + destruct k; [| discriminate]. now exists "".
    + rewrite <- E. now exists r.
Qed.

Lemma contains_rstrip k s :
  k <> "" -> no_space k -> Py.Contains k s -> Py.Contains k (Py.rstrip s).
Proof.
  intros Hk Hns. induction s as [|c s IH]; intros [a [b H]]; [now exists a, b |].
  destruct a as [|x a]; simpl in H.
  - rewrite H. destruct (rstrip_keeps_prefix k b Hns) as [r Hr].
    exists "", r. exact Hr.
  - injection H as <- H.
    destruct (IH (ex_intro _ a (ex_intro _ b H))) as [a' [b' H']].
    rewrite rstrip_cons, H'.
    destruct (a' ++ k ++ b') as [|d t] eqn:E.
    + destruct a'; [| discriminate]. destruct k; [congruence | discriminate].
    + rewrite <- E. now exists (String c a'), b'.
Qed.

Lemma contains_strip k s :
  k <> "" -> no_space k -> Py.Contains k s -> Py.Contains k (Py.strip s).
Proof.
  intros Hk Hns H. unfold Py.strip.
  now apply contains_rstrip, contains_lstrip.
Qed.

(** None of the sixteen keywords is empty or has white space in it. *)
Lemma keywords_solid k :
  In k dangerous_keywords -> k <> "" /\ no_space k.
Proof.
  assert (B : forall k, forallb (fun c => negb (Py.is_space c))
                          (list_ascii_of_string k) = true -> no_space k).
  { clear. intros k. induction k as [|x k IH]; intros H a c b E.
    - destruct a; discriminate.
    - simpl in H. apply andb_true_iff in H. destruct H as [Hx H].
      destruct a as [|y a]; simpl in E; injection E as -> E.
      + now apply negb_true_iff.
      + now apply (IH H a c b). }
  unfold dangerous_keywords. intros H.
  repeat (destruct H as [<- | H]; [split; [discriminate | now apply B] |]).
  destruct H.
Qed.

(** A keyword found in the lowercased raw text is still there after the
    trim. *)
Lemma keyword_survives_strip sql k :
  In k dangerous_keywords -> Py.Contains k (Py.lower sql) ->
  Py.Contains k (Py.strip (Py.lower sql)).
Proof.
  intros Hk H. destruct (keywords_solid k Hk) as [Hne Hns].
  now apply contains_strip.
Qed.

End KeywordFacts.

Lemma validators_same sql :
  Direct_validator.validate_sql_safety sql = Server_validator.validate_sql_safety sql.
Proof. reflexivity. Qed.

Lemma validate_rejects_keyword sql k :
  In k dangerous_keywords -> Py.Contains k (Py.lower sql) ->
  Server_validator.validate_sql_safety sql = false.
Proof.
  intros Hk Hc. apply not_true_is_false. intros H.
  unfold Server_validator.validate_sql_safety in H.
  apply for_keywords_spec in H. destruct H as [_ H].
  apply (H k Hk). now apply keyword_survives_strip.
Qed.

(** X1: the validator looks at a statement only up to the case of its
    letters and the white space around it: two statements with the same
    lowercase form get the same verdict, and so do a statement and its
    trimmed form. *)
Theorem validate_sql_safety_case_and_blanks :
  (forall s1 s2, Py.lower s1 = Py.lower s2 ->
     Server_validator.validate_sql_safety s1 = Server_validator.validate_sql_safety s2 /\
     Direct_validator.validate_sql_safety s1 = Direct_validator.validate_sql_safety s2) /\
  (forall s,
     Server_validator.validate_sql_safety (Py.strip s) =
       Server_validator.validate_sql_safety s /\
     Direct_validator.validate_sql_safety (Py.strip s) =
       Direct_validator.validate_sql_safety s).
Proof.
  split.
  - intros s1 s2 H.
    unfold Server_validator.validate_sql_safety, Direct_validator.validate_sql_safety.
    now rewrite H.
  - intros s.
    unfold Server_validator.validate_sql_safety, Direct_validator.validate_sql_safety.
    now rewrite lower_strip, strip_idem.
Qed.

(** [validate_sql_safety_case_and_blanks] on two spellings of one statement. *)
Lemma validate_sql_safety_case_and_blanks_witness :
  Server_validator.validate_sql_safety "SELECT Name FROM Employees" =
  Server_validator.validate_sql_safety "select name from employees".
Proof.
  refine (proj1 (proj1 validate_sql_safety_case_and_blanks
                   "SELECT Name FROM Employees" "select name from employees" _)).
  reflexivity.
Defined.

(** X2: a statement whose text has one of the sixteen denylisted words in
    it -- anywhere, in any letter case -- is refused by [safe_query] in both
    adapters, and the engine has no part in the answer. *)
Theorem safe_query_refuses_keyword_anywhere
    (sql k : string) :
  In k dangerous_keywords -> Py.Contains k (Py.lower sql) ->
  Server_validator.validate_sql_safety sql = false /\
  Direct_validator.validate_sql_safety sql = false /\
  (forall execute db,
     Direct.safe_query execute db sql =
     Raise "ValueError"
       "Query contains unsafe operations. Only SELECT statements are allowed.") /\
  (forall execute db a, arg_query a = Some sql ->
     Server.handle_call_tool execute db "safe_query" a =
     Return [Server.Message
       "Error: Query contains unsafe operations. Only SELECT statements are allowed."]).
Proof.
  intros Hk Hc.
  pose proof (validate_rejects_keyword sql k Hk Hc) as V.
  split; [exact V |]. split; [exact V |]. split.
  - intros execute db. unfold Direct.safe_query, Direct.validate_sql_safety.
    rewrite validators_same, V. reflexivity.
  - intros execute db a Ha. unfold Server.handle_call_tool, Server.validate_sql_safety.
    cbn [String.eqb Ascii.eqb Bool.eqb]. rewrite Ha, V. reflexivity.
Qed.

(** [safe_query_refuses_keyword_anywhere] on a SELECT that names the column
    [Updated_By]. *)
Lemma safe_query_refuses_keyword_anywhere_witness :
  Direct_validator.validate_sql_safety "  SELECT Updated_By FROM employees" = false.
Proof.
  refine (proj1 (proj2 (safe_query_refuses_keyword_anywhere
            "  SELECT Updated_By FROM employees" "update" _ _))).
  - simpl. tauto.
  - exists "  select ", "d_by from employees". reflexivity.
Defined.

(* ------------------------------------------------------------------ *)
(** ** Listings, limits and single rows *)
(* ------------------------------------------------------------------ *)

Section ListingFacts.

Lemma filter_true {A} (l : list A) : filter (fun _ => true) l = l.
Proof. induction l as [|x l IH]; simpl; [reflexivity | now rewrite IH]. Qed.

Lemma insert_by_perm {A} (key : A -> Z) r rows :
  Permutation (Sql.insert_by key r rows) (r :: rows).
Proof.
  induction rows as [|r' rows IH]; simpl; [reflexivity |].
  destruct (key r <=? key r'); [reflexivity |].
  rewrite IH. apply perm_swap.
Qed.

Lemma order_by_perm {A} (key : A -> Z) rows :
  Permutation (Sql.order_by key rows) rows.
Proof.
  unfold Sql.order_by. induction rows as [|r rows IH]; simpl; [reflexivity |].
  rewrite insert_by_perm. now constructor.
Qed.

Lemma limit_firstn {A} n m (rows : list A) :
  0 <= n -> (n <= m \/ m < 0) ->
  Sql.limit n rows = firstn (Z.to_nat n) (Sql.limit m rows).
Proof.
  intros Hn Hm. unfold Sql.limit.
  replace (n <? 0) with false by (symmetry; apply Z.ltb_ge; lia).
  destruct (m <? 0) eqn:E; [reflexivity |].
  apply Z.ltb_ge in E. rewrite firstn_firstn. f_equal. lia.
Qed.

(** With unique department identifiers a reference selects at most one
    department, so the join has one row per employee. *)
Lemma left_join_one_single ds e :
  NoDup (map Department.id ds) ->
  exists d, Sql.left_join_one ds e = [(e, d)].
Proof.
  intros Hnd. unfold Sql.left_join_one.
  destruct (filter (Sql.on_department_id e) ds) as [|d ms] eqn:E.
  - now exists None.
  - exists (Some d).
    assert (Hd : In d (filter (Sql.on_department_id e) ds)) by (rewrite E; now left).
    apply filter_In in Hd. destruct Hd as [Hin Hon].
    unfold Sql.on_department_id in Hon.
    destruct (Employee.department_id e) as [k|] eqn:Ek; [| discriminate].
    apply Z.eqb_eq in Hon. subst k.
    assert (F : filter (Sql.on_department_id e) ds = [d]).
    { rewrite <- (filter_unique_department ds d Hnd Hin).
      apply filter_ext. intros d'. unfold Sql.on_department_id. now rewrite Ek. }
    rewrite F in E. injection E as <-. reflexivity.
Qed.

Lemma left_join_length es ds :
  NoDup (map Department.id ds) ->
  List.length (Sql.left_join es ds) = List.length es.
Proof.
  intros Hnd. unfold Sql.left_join.
  induction es as [|e es IH]; simpl; [reflexivity |].
  rewrite length_app, IH.
  destruct (left_join_one_single ds e Hnd) as [d ->]. reflexivity.
Qed.

Lemma left_join_covers es ds e :
  In e es -> exists d, In (e, d) (Sql.left_join es ds).
Proof.
  intros He. unfold Sql.left_join.
  assert (H : exists d, In (e, d) (Sql.left_join_one ds e)).
  { unfold Sql.left_join_one.
    destruct (filter (Sql.on_department_id e) ds) as [|d ms].
    - exists None. now left.
    - exists (Some d). now left. }
  destruct H as [d Hd]. exists d. apply in_flat_map. now exists e.
Qed.

End ListingFacts.

(** X3: a search in which neither filter is in force (absent or empty) is
    the plain listing with the search's own default limit of 50, in both
    adapters. *)
Theorem search_without_filters_is_listing
    (db : Database) (name department : option string) (limit : option Z) :
  Py.truthy_str (default "" name) = false ->
  Py.truthy_str (default "" department) = false ->
  Direct.search_employees db name department limit =
    Direct.list_employees db (Some (default 50 limit)) /\
  (forall execute a,
     arg_name a = name -> arg_department a = department -> arg_limit a = limit ->
     Server.handle_call_tool execute db "search_employees" a =
     Server.handle_call_tool execute db "list_employees"
       (with_limit (default 50 limit))).
Proof.
  intros Hn Hd.
  assert (F : forall rs : list Sql.joined,
            filter (fun r : Employee.t * option Department.t =>
              (if Py.truthy_str (default "" name)
               then Sql.like ("%" ++ default "" name ++ "%") (Employee.name (fst r))
               else true) &&
              (if Py.truthy_str (default "" department)
               then Sql.like_nullable ("%" ++ default "" department ++ "%")
                      (Sql.department_name r)
               else true)) rs = rs).
  { intros rs. rewrite Hn, Hd. apply filter_true. }
  split.
  - unfold Direct.search_employees, Direct.list_employees. cbn [default].
    fold (default "" name) (default "" department). now rewrite F.
  - intros execute a <- <- <-. unfold Server.handle_call_tool.
    cbn [String.eqb Ascii.eqb Bool.eqb with_limit arg_limit].
    cbn [default]. fold (default "" (arg_name a)) (default "" (arg_department a)).
    now rewrite F.
Qed.

(** [search_without_filters_is_listing] with an empty name and no
    department. *)
Lemma search_without_filters_is_listing_witness :
  Direct.search_employees ada_db (Some "") None (Some 7) =
  Direct.list_employees ada_db (Some 7).
Proof.
  refine (proj1 (search_without_filters_is_listing ada_db (Some "") None (Some 7) _ _));
    reflexivity.
Defined.

(** X4: a listing or a search under a limit [n >= 0] is the first [n] rows
    of the same call under any larger, or negative, limit. *)
Theorem smaller_limit_is_prefix
    (db : Database) (name department : option string) (n m : Z) :
  0 <= n -> n <= m \/ m < 0 ->
  Direct.list_employees db (Some n) =
    firstn (Z.to_nat n) (Direct.list_employees db (Some m)) /\
  Direct.search_employees db name department (Some n) =
    firstn (Z.to_nat n) (Direct.search_employees db name department (Some m)).
Proof.
  intros Hn Hm.
  unfold Direct.list_employees, Direct.search_employees. cbn [default].
  split; rewrite (limit_firstn n m _ Hn Hm), <- !firstn_map; reflexivity.
Qed.

(** [smaller_limit_is_prefix] for limits 2 and 4 on a table of five. *)
Lemma smaller_limit_is_prefix_witness :
  Direct.list_employees (staff 5) (Some 2) =
  firstn 2 (Direct.list_employees (staff 5) (Some 4)).
Proof.
  refine (proj1 (smaller_limit_is_prefix (staff 5) None None 2 4 _ _)); lia.
Defined.

Section CompletenessFacts.

Lemma left_join_fst_all es ds :
  NoDup (map Department.id ds) -> map fst (Sql.left_join es ds) = es.
Proof.
  intros Hnd. unfold Sql.left_join.
  induction es as [|e es IH]; [reflexivity |].
  cbn [flat_map]. rewrite map_app.
  destruct (left_join_one_single ds e Hnd) as [d ->].
  cbn [map fst app]. f_equal. exact IH.
Qed.

Lemma limit_all {A} n (rows : list A) :
  n < 0 \/ Z.of_nat (List.length rows) <= n -> Sql.limit n rows = rows.
Proof.
  intros H. unfold Sql.limit. destruct (n <? 0) eqn:E; [reflexivity |].
  apply Z.ltb_ge in E. apply firstn_all2. lia.
Qed.

Lemma NoDup_map_injective {A B} (f : A -> B) (l : list A) x y :
  NoDup (map f l) -> In x l -> In y l -> f x = f y -> x = y.
Proof.
  induction l as [|a l IH]; intros Hnd Hx Hy E; [destruct Hx |].
  simpl in Hnd. apply NoDup_cons_iff in Hnd. destruct Hnd as [Ha Hnd].
  destruct Hx as [-> | Hx], Hy as [-> | Hy].
  - reflexivity.
  - exfalso. apply Ha. rewrite E. now apply in_map.
  - exfalso. apply Ha. rewrite <- E. now apply in_map.
  - now apply IH.
Qed.

End CompletenessFacts.

(** X5: when department identifiers are unique and the limit is negative or
    at least the number of employees, the listing has one row per employee:
    as many rows as employees, carrying the employees' identifiers, each as
    often as the table has it. *)
Theorem list_employees_one_row_per_employee (db : Database) (n : Z) :
  NoDup (map Department.id (departments db)) ->
  n < 0 \/ Z.of_nat (List.length (employees db)) <= n ->
  List.length (Direct.list_employees db (Some n)) = List.length (employees db) /\
  Permutation (map row_id (Direct.list_employees db (Some n)))
              (map (fun e => Some (Employee.id e)) (employees db)).
Proof.
  intros Hnd Hn.
  set (lj := Sql.left_join (employees db) (departments db)).
  assert (L : Sql.limit n
                (Sql.order_by (fun r : Employee.t * option Department.t =>
                                 Employee.id (fst r)) lj) =
              Sql.order_by (fun r : Employee.t * option Department.t =>
                              Employee.id (fst r)) lj).
  { apply limit_all.
    rewrite (Permutation_length (order_by_perm _ lj)). unfold lj.
    rewrite left_join_length by exact Hnd. exact Hn. }
  unfold Direct.list_employees. cbn [default]. fold lj. split.
  - rewrite !length_map, L, (Permutation_length (order_by_perm _ lj)).
    now apply left_join_length.
  - rewrite employee_rows_ids, L.
    apply Permutation_trans
      with (map Some (map (fun r : Sql.joined => Employee.id (fst r)) lj)).
    + apply Permutation_map, Permutation_map, order_by_perm.
    + rewrite <- (left_join_fst_all (employees db) (departments db) Hnd).
      fold lj. rewrite !map_map. reflexivity.
Qed.

(** [list_employees_one_row_per_employee] on the one-employee table, with
    no bound. *)
Lemma list_employees_one_row_per_employee_witness :
  List.length (Direct.list_employees ada_db (Some (-1))) = 1%nat.
Proof.
  refine (proj1 (list_employees_one_row_per_employee ada_db (-1) _ _)).
  - simpl. constructor; [intros [] | constructor].
  - left. lia.
Defined.

(** X6: an employee of the table is found under its identifier: with unique
    employee identifiers, [get_employee] returns a row carrying that
    employee's identifier, name, department reference, salary and hire date,
    and the protocol server returns the same row. *)
Theorem get_employee_finds_existing (db : Database) (e : Employee.t) :
  NoDup (map Employee.id (employees db)) ->
  In e (employees db) ->
  exists row,
    Direct.get_employee db (Employee.id e) = Some row /\
    dict_get "id" row = Some (Sql.VInt (Employee.id e)) /\
    dict_get "name" row = Some (Sql.VText (Employee.name e)) /\
    dict_get "department_id" row = Some (Sql.of_int (Employee.department_id e)) /\
    dict_get "salary" row = Some (Sql.of_real (Employee.salary e)) /\
    dict_get "hire_date" row = Some (Sql.of_text (Employee.hire_date e)) /\
    (forall execute a, arg_employee_id a = Some (Employee.id e) ->
       Server.handle_call_tool execute db "get_employee" a =
       Return [Server.Dumps (Server.JDict row)]).
Proof.
  intros Hnd He.
  destruct (left_join_covers (employees db) (departments db) e He) as [d Hd].
  remember (filter (fun r : Employee.t * option Department.t =>
                      Employee.id (fst r) =? Employee.id e)
              (Sql.left_join (employees db) (departments db))) as rs eqn:Ers.
  assert (Hne : In (e, d) rs).
  { rewrite Ers. apply filter_In. split; [exact Hd | apply Z.eqb_refl]. }
  destruct rs as [|r rs']; [destruct Hne |].
  assert (Hr : fst r = e).
  { assert (Hin : In r (r :: rs')) by now left.
    rewrite Ers in Hin. apply filter_In in Hin. destruct Hin as [Hin Hid].
    apply Z.eqb_eq in Hid. apply left_join_fst in Hin.
    now apply (NoDup_map_injective Employee.id (employees db)). }
  exists (dict_zip Sql.employee_columns (Sql.employee_row r)).
  split; [| split; [| split; [| split; [| split; [| split]]]]].
  - unfold Direct.get_employee. rewrite <- Ers. reflexivity.
  - cbn. now rewrite Hr.
  - cbn. now rewrite Hr.
  - cbn. now rewrite Hr.
  - cbn. now rewrite Hr.
  - cbn. now rewrite Hr.
  - intros execute a Ha. unfold Server.handle_call_tool.
    cbn [String.eqb Ascii.eqb Bool.eqb]. rewrite Ha, <- Ers. reflexivity.
Qed.

(** [get_employee_finds_existing] for Ada. *)
Lemma get_employee_finds_existing_witness :
  exists row,
    Direct.get_employee ada_db 1 = Some row /\
    dict_get "id" row = Some (Sql.VInt 1).
Proof.
  destruct (get_employee_finds_existing ada_db
              (Employee.mk 1 "Ada" (Some 1) (Some 120000%float) (Some "2023-01-15")))
    as [row [H1 [H2 _]]].
  - simpl. constructor; [intros [] | constructor].
  - simpl. left. reflexivity.
  - exists row. split; [exact H1 | exact H2].
Defined.

Lemma department_rows_ids (ds : list Department.t) :
  map row_id (map (dict_zip Sql.department_columns) (map Sql.department_row ds)) =
  map Some (map Department.id ds).
Proof. induction ds as [|d ds IH]; simpl; [reflexivity | f_equal; exact IH]. Qed.

(** X7: the department listing has every department of the table exactly
    once, in ascending order of identifier; the server's tool and the
    departments resource give the same list. *)
Theorem list_departments_sorted_and_complete (db : Database) :
  ordered_by_id (Direct.list_departments db) /\
  Permutation (Direct.list_departments db)
    (map (fun d => [ ("id", Sql.VInt (Department.id d));
                     ("name", Sql.VText (Department.name d)) ])
         (departments db)) /\
  (forall execute a,
     Server.handle_call_tool execute db "list_departments" a =
     Return [Server.Dumps (Server.JList (Direct.list_departments db))]) /\
  Protocol.handle_read_resource db "employees://departments" =
    Return (Server.Dumps (Server.JList (Direct.list_departments db))).
Proof.
  split; [| split; [| split]].
  - unfold ordered_by_id, Direct.list_departments.
    eexists. split; [apply department_rows_ids | apply order_by_sorted].
  - unfold Direct.list_departments. rewrite map_map.
    apply (Permutation_map
             (fun d => dict_zip Sql.department_columns (Sql.department_row d))).
    apply order_by_perm.
  - reflexivity.
  - reflexivity.
Qed.

Section StatsFacts.

Lemma salaries_none es :
  (forall e, In e es -> Employee.salary e = None) -> Independent.salaries es = [].
Proof.
  induction es as [|e es IH]; intros H; simpl; [reflexivity |].
  rewrite (H e (or_introl eq_refl)). apply IH. intros e' He'. apply H. now right.
Qed.

Lemma salaries_in es x :
  In x (Independent.salaries es) -> exists e, In e es /\ Employee.salary e = Some x.
Proof.
  induction es as [|e es IH]; simpl; [intros [] |].
  destruct (Employee.salary e) as [y|] eqn:E.
  - intros [<- | H].
    + exists e. split; [now left | exact E].
    + destruct (IH H) as [e' [He' Hs]]. exists e'. split; [now right | exact Hs].
  - intros H. destruct (IH H) as [e' [He' Hs]]. exists e'. split; [now right | exact Hs].
Qed.

Lemma fold_pick_in (pick : float -> float -> bool) xs x :
  In (fold_left (fun m y => if pick m y then y else m) xs x) (x :: xs).
Proof.
  revert x. induction xs as [|y xs IH]; intros x; simpl; [now left |].
  destruct (IH (if pick x y then y else x)) as [H | H].
  - destruct (pick x y); [right; left | left]; exact H.
  - right. now right.
Qed.

Lemma minimum_in xs m : Independent.minimum xs = Some m -> In m xs.
Proof.
  destruct xs as [|x xs]; [discriminate |]. unfold Independent.minimum.
  intros H. injection H as <-.
  apply (fold_pick_in (fun m y => PrimFloat.ltb y m)).
Qed.

Lemma maximum_in xs m : Independent.maximum xs = Some m -> In m xs.
Proof.
  destruct xs as [|x xs]; [discriminate |]. unfold Independent.maximum.
  intros H. injection H as <-.
  apply (fold_pick_in (fun m y => PrimFloat.ltb m y)).
Qed.

(** The rows a statistics call aggregates. *)
Lemma stats_rows db department_id :
  Direct.get_employee_stats db department_id =
  let es := if Py.truthy_opt_int department_id
            then filter (Sql.department_id_is (default 0 department_id)) (employees db)
            else employees db in
  let xs := Independent.salaries es in
  [ ("total_employees", Sql.VInt (Independent.count es));
    ("avg_salary", Sql.of_real (Independent.average xs));
    ("min_salary", Sql.of_real (Independent.minimum xs));
    ("max_salary", Sql.of_real (Independent.maximum xs)) ].
Proof.
  unfold Direct.get_employee_stats.
  destruct (Py.truthy_opt_int department_id); rewrite select_stats_spec.
  - reflexivity.
  - now rewrite filter_true.
Qed.

End StatsFacts.

(** X8: when none of the employees a statistics call ranges over has a
    salary -- in particular when there is none, as for an empty table or a
    department nobody refers to -- the call still answers with one row: the
    count of those employees, and NULL for average, minimum and maximum. *)
Theorem stats_without_salaries (db : Database) (department_id : option Z) :
  let es := if Py.truthy_opt_int department_id
            then Independent.in_department (default 0 department_id) db
            else employees db in
  (forall e, In e es -> Employee.salary e = None) ->
  Direct.get_employee_stats db department_id =
  [ ("total_employees", Sql.VInt (Z.of_nat (List.length es)));
    ("avg_salary", Sql.VNull); ("min_salary", Sql.VNull);
    ("max_salary", Sql.VNull) ].
Proof.
  intros es H. rewrite stats_rows. cbv zeta.
  change (if Py.truthy_opt_int department_id
          then filter (Sql.department_id_is (default 0 department_id)) (employees db)
          else employees db) with es.
  now rewrite (salaries_none es H).
Qed.

(** [stats_without_salaries] for department 9 of the one-employee table. *)
Lemma stats_without_salaries_witness :
  Direct.get_employee_stats ada_db (Some 9) =
  [ ("total_employees", Sql.VInt 0);
    ("avg_salary", Sql.VNull); ("min_salary", Sql.VNull);
    ("max_salary", Sql.VNull) ].
Proof.
  refine (stats_without_salaries ada_db (Some 9) _).
  intros e [].
Defined.

(** X9: the minimum and the maximum a statistics call reports are salaries
    on record: each is the salary of an employee of the table, and of the
    filtered department when the filter is in force. *)
Theorem stats_extremes_are_recorded
    (db : Database) (department_id : option Z) (m : float) :
  dict_get "min_salary" (Direct.get_employee_stats db department_id) =
    Some (Sql.VReal m) \/
  dict_get "max_salary" (Direct.get_employee_stats db department_id) =
    Some (Sql.VReal m) ->
  exists e,
    In e (employees db) /\ Employee.salary e = Some m /\
    (Py.truthy_opt_int department_id = true ->
     Employee.department_id e = department_id).
Proof.
  rewrite stats_rows. cbv zeta. cbn [dict_get String.eqb Ascii.eqb Bool.eqb].
  set (es := if Py.truthy_opt_int department_id
             then filter (Sql.department_id_is (default 0 department_id)) (employees db)
             else employees db).
  intros H.
  assert (Hm : In m (Independent.salaries es)).
  { destruct H as [H | H].
    - destruct (Independent.minimum (Independent.salaries es)) as [x|] eqn:E;
        [| discriminate]. injection H as ->. now apply minimum_in.
    - destruct (Independent.maximum (Independent.salaries es)) as [x|] eqn:E;
        [| discriminate]. injection H as ->. now apply maximum_in. }
  apply salaries_in in Hm. destruct Hm as [e [He Hs]].
  exists e. unfold es in He.
  destruct (Py.truthy_opt_int department_id) eqn:T.
  - apply filter_In in He. destruct He as [He Hd].
    split; [exact He |]. split; [exact Hs |]. intros _.
    unfold Sql.department_id_is in Hd.
    destruct (Employee.department_id e) as [j|]; [| discriminate].
    apply Z.eqb_eq in Hd. subst j.
    destruct department_id as [k|]; [reflexivity | discriminate].
  - split; [exact He |]. split; [exact Hs | discriminate].
Qed.

(** [stats_extremes_are_recorded] for the minimum over department 1. *)
Lemma stats_extremes_are_recorded_witness :
  exists e, In e (employees ada_db) /\ Employee.salary e = Some 120000%float.
Proof.
  destruct (stats_extremes_are_recorded ada_db (Some 1) 120000%float)
    as [e [H1 [H2 _]]].
  - left. vm_compute. reflexivity.
  - exists e. split; [exact H1 | exact H2].
Defined.

(* ------------------------------------------------------------------ *)
(** ** Result rows as dictionaries: keys and lookups *)
(* ------------------------------------------------------------------ *)

Section DictFacts.

Lemma dict_get_set_same k v d : dict_get k (dict_set k v d) = Some v.
Proof.
  induction d as [|[k' v'] d IH]; simpl.
  - now rewrite String.eqb_refl.
  - destruct (String.eqb k' k) eqn:E; simpl; rewrite E; [reflexivity | exact IH].
Qed.

Lemma dict_get_set_other k k' v d :
  k' <> k -> dict_get k (dict_set k' v d) = dict_get k d.
Proof.
  intros Hne. induction d as [|[k0 v0] d IH]; simpl.
  - now replace (String.eqb k' k) with false by (symmetry; now apply String.eqb_neq).
  - destruct (String.eqb k0 k') eqn:E; simpl.
    + apply String.eqb_eq in E. subst k0.
      now replace (String.eqb k' k) with false by (symmetry; now apply String.eqb_neq).
    + destruct (String.eqb k0 k); [reflexivity | exact IH].
Qed.

Lemma dict_set_keys k v d :
  map fst (dict_set k v d) =
  if existsb (fun k' => String.eqb k' k) (map fst d)
  then map fst d else (map fst d ++ [k])%list.
Proof.
  induction d as [|[k' v'] d IH]; simpl; [reflexivity |].
  destruct (String.eqb k' k) eqn:E; simpl; [reflexivity |].
  rewrite IH. destruct (existsb _ (map fst d)); reflexivity.
Qed.

Lemma dict_set_nodup k v d :
  NoDup (map fst d) -> NoDup (map fst (dict_set k v d)).
Proof.
  intros H. rewrite dict_set_keys.
  destruct (existsb (fun k' => String.eqb k' k) (map fst d)) eqn:E; [exact H |].
  apply NoDup_app; [exact H | constructor; [intros [] | constructor] |].
  intros x Hx [-> | []].
  assert (T : existsb (fun k' => String.eqb k' x) (map fst d) = true).
  { apply existsb_exists. exists x. split; [exact Hx | apply String.eqb_refl]. }
  congruence.
Qed.

Lemma find_app {A} (p : A -> bool) (l1 l2 : list A) :
  find p (l1 ++ l2) = match find p l1 with Some x => Some x | None => find p l2 end.
Proof.
  induction l1 as [|x l1 IH]; simpl; [reflexivity |].
  destruct (p x); [reflexivity | exact IH].
Qed.

Lemma dict_fold_get k (l : list (string * Sql.value)) (d : Dict) :
  dict_get k (fold_left (fun d kv => dict_set (fst kv) (snd kv) d) l d) =
  match find (fun kv => String.eqb (fst kv) k) (rev l) with
  | Some kv => Some (snd kv)
  | None => dict_get k d
  end.
Proof.
  revert d. induction l as [|[k' v'] l IH]; intros d; simpl; [reflexivity |].
  rewrite IH, find_app. simpl.
  destruct (find _ (rev l)); [reflexivity |].
  destruct (String.eqb k' k) eqn:E.
  - apply String.eqb_eq in E. subst k'. apply dict_get_set_same.
  - apply dict_get_set_other. now apply String.eqb_neq.
Qed.

Lemma dict_fold_nodup (l : list (string * Sql.value)) (d : Dict) :
  NoDup (map fst d) ->
  NoDup (map fst (fold_left (fun d kv => dict_set (fst kv) (snd kv) d) l d)).
Proof.
  revert d. induction l as [|kv l IH]; intros d H; simpl; [exact H |].
  apply IH. now apply dict_set_nodup.
Qed.

End DictFacts.

(** X10: a row built from column names and values never has a key twice,
    and looking a column up gives the value of its last occurrence among the
    columns -- so a statement that names a column twice keeps the later
    value, and a column that is not selected is not in the row.  These are
    the rows [safe_query] returns for the columns and rows of the engine. *)
Theorem dict_zip_lookup (columns : list string) (row : list Sql.value) (k : string) :
  NoDup (map fst (dict_zip columns row)) /\
  dict_get k (dict_zip columns row) =
    option_map snd
      (find (fun kv => String.eqb (fst kv) k) (rev (combine columns row))) /\
  (forall execute db query rows,
     Direct_validator.validate_sql_safety query = true ->
     execute db query = Sql.Rows columns rows -> In row rows ->
     exists result,
       Direct.safe_query execute db query = Return result /\
       In (dict_zip columns row) result).
Proof.
  unfold dict_zip. split; [| split].
  - apply dict_fold_nodup. constructor.
  - rewrite dict_fold_get. now destruct (find _ _).
  - intros execute db query rows V E Hin.
    unfold Direct.safe_query, Direct.validate_sql_safety. rewrite V, E.
    eexists. split; [reflexivity |].
    apply (in_map (dict_zip columns)) in Hin. exact Hin.
Qed.

(** X11: every row the fixed statements return has all the columns of its
    statement as keys, in the statement's order, NULL or not: six for an
    employee row, two for a department, four for the statistics. *)
Theorem result_rows_have_all_columns :
  (forall db limit row,
     In row (Direct.list_employees db limit) ->
     map fst row = Sql.employee_columns) /\
  (forall db name department limit row,
     In row (Direct.search_employees db name department limit) ->
     map fst row = Sql.employee_columns) /\
  (forall db i row,
     Direct.get_employee db i = Some row -> map fst row = Sql.employee_columns) /\
  (forall db row,
     In row (Direct.list_departments db) -> map fst row = Sql.department_columns) /\
  (forall db department_id,
     map fst (Direct.get_employee_stats db department_id) = Sql.stats_columns).
Proof.
  assert (E : forall (rs : list Sql.joined) row,
            In row (map (dict_zip Sql.employee_columns) (map Sql.employee_row rs)) ->
            map fst row = Sql.employee_columns).
  { intros rs row H. apply in_map_iff in H. destruct H as [v [<- H]].
    apply in_map_iff in H. destruct H as [r [<- _]]. reflexivity. }
  split; [| split; [| split; [| split]]].
  - intros db limit row. apply E.
  - intros db name department limit row. apply E.
  - intros db i row. unfold Direct.get_employee.
    destruct (fetchone _) as [v|] eqn:F; [| discriminate].
    intros H. injection H as <-.
    unfold fetchone in F. apply hd_error_some_nil in F as N.
    destruct (map Sql.employee_row _) as [|v0 l] eqn:M; [discriminate |].
    simpl in F. injection F as ->.
    assert (Hin : In v (map Sql.employee_row
              (filter (fun r : Employee.t * option Department.t =>
                         Employee.id (fst r) =? i)
                 (Sql.left_join (employees db) (departments db)))))
      by (rewrite M; now left).
    apply in_map_iff in Hin. destruct Hin as [r [<- _]]. reflexivity.
  - intros db row H. unfold Direct.list_departments in H.
    apply in_map_iff in H. destruct H as [v [<- H]].
    apply in_map_iff in H. destruct H as [d [<- _]]. reflexivity.
  - intros db department_id. now rewrite stats_rows.
Qed.

(* ------------------------------------------------------------------ *)
(** ** The tool catalogue and the resources against their handlers *)
(* ------------------------------------------------------------------ *)

(** X12: the tools the server lists are exactly the ones it handles: a call
    is answered with "Unknown tool: <name>" if and only if the name is not
    in the catalogue. *)
Theorem listed_tools_are_handled
    (execute : Database -> string -> Sql.executed)
    (db : Database) (name : string) (a : Arguments) :
  Server.handle_call_tool execute db name a =
    Return [Server.Message ("Unknown tool: " ++ name)] <->
  ~ In name (map Protocol.tool_name Protocol.handle_list_tools).
Proof.
  cbn [map Protocol.handle_list_tools Protocol.tool_name].
  split.
  - intros H Hin.
    repeat (destruct Hin as [<- | Hin]; [revert H | ]); [ .. | destruct Hin ];
      unfold Server.handle_call_tool; cbn [String.eqb Ascii.eqb Bool.eqb].
    + discriminate.
    + destruct (arg_employee_id a); [| discriminate].
      destruct (fetchone _); discriminate.
    + discriminate.
    + discriminate.
    + discriminate.
    + destruct (arg_query a) as [q|]; [| discriminate].
      destruct (negb _); [discriminate |].
      destruct (execute db q); [| discriminate].
      destruct (json_serializable _); discriminate.
  - intros Hn. unfold Server.handle_call_tool.
    repeat match goal with
    | |- context [String.eqb name ?lit] =>
        destruct (String.eqb name lit) eqn:?E;
        [ apply String.eqb_eq in E; exfalso; apply Hn; rewrite E; simpl; tauto
        | clear E ]
    end.
    reflexivity.
Qed.

(** X13: the arguments a tool's schema lists as required are the ones its
    handler cannot do without: a call that lacks one raises [KeyError] with
    that argument's name, and a call that carries them all never raises
    [KeyError], whatever else it carries or lacks. *)
Theorem required_arguments_decide
    (execute : Database -> string -> Sql.executed)
    (db : Database) (tool : Protocol.Tool) (a : Arguments) :
  In tool Protocol.handle_list_tools ->
  ((forall k, In k (Protocol.required tool) -> Protocol.has_argument k a = true) ->
   forall k,
     Server.handle_call_tool execute db (Protocol.tool_name tool) a <>
     Raise "KeyError" k) /\
  (forall k, In k (Protocol.required tool) -> Protocol.has_argument k a = false ->
     Server.handle_call_tool execute db (Protocol.tool_name tool) a =
     Raise "KeyError" k).
Proof.
  intros Hin. unfold Protocol.handle_list_tools in Hin.
  repeat (destruct Hin as [<- | Hin]); [ .. | destruct Hin ];
    cbn [Protocol.required Protocol.tool_name];
    unfold Server.handle_call_tool; cbn [String.eqb Ascii.eqb Bool.eqb];
    (split; [intros H k | intros k Hk Ha]).
  all: try discriminate.
  all: try (destruct Hk; fail).
  - assert (P := H "employee_id" (or_introl eq_refl)).
    unfold Protocol.has_argument in P. cbn [String.eqb Ascii.eqb Bool.eqb] in P.
    destruct (arg_employee_id a); [| discriminate].
    destruct (fetchone _); discriminate.
  - destruct Hk as [<- | []].
    unfold Protocol.has_argument in Ha. cbn [String.eqb Ascii.eqb Bool.eqb] in Ha.
    destruct (arg_employee_id a); [discriminate | reflexivity].
  - assert (P := H "query" (or_introl eq_refl)).
    unfold Protocol.has_argument in P. cbn [String.eqb Ascii.eqb Bool.eqb] in P.
    destruct (arg_query a) as [q|]; [| discriminate].
    destruct (negb _); [discriminate |].
    destruct (execute db q); [| discriminate].
    destruct (json_serializable _); discriminate.
  - destruct Hk as [<- | []].
    unfold Protocol.has_argument in Ha. cbn [String.eqb Ascii.eqb Bool.eqb] in Ha.
    destruct (arg_query a); [discriminate | reflexivity].
Qed.

(** [required_arguments_decide]: [get_employee] without its identifier. *)
Lemma required_arguments_decide_witness :
  Server.handle_call_tool no_engine ada_db "get_employee" (with_limit 3) =
  Raise "KeyError" "employee_id".
Proof.
  refine (proj2 (required_arguments_decide no_engine ada_db
            {| Protocol.tool_name := "get_employee";
               Protocol.tool_description := "Get a specific employee by ID";
               Protocol.properties :=
                 [ {| Protocol.key := "employee_id"; Protocol.type := "integer";
                      Protocol.about := "The ID of the employee to retrieve";
                      Protocol.minimum := None; Protocol.maximum := None |} ];
               Protocol.required := ["employee_id"] |}
            (with_limit 3) _) "employee_id" _ _).
  - simpl. tauto.
  - simpl. tauto.
  - reflexivity.
Defined.

(** X14: [handle_read_resource] goes by the text of the address: the text
    [employees://employees] gives the employee listing with no limit, the
    text [employees://departments] the department listing, and every other
    text raises [ValueError] naming it. *)
Theorem read_resource_by_text (db : Database) :
  Protocol.handle_read_resource db "employees://employees" =
    Return (Server.Dumps (Server.JList (Direct.list_employees db (Some (-1))))) /\
  Protocol.handle_read_resource db "employees://departments" =
    Return (Server.Dumps (Server.JList (Direct.list_departments db))) /\
  (forall uri,
     uri <> "employees://employees" -> uri <> "employees://departments" ->
     Protocol.handle_read_resource db uri =
     Raise "ValueError" ("Unknown resource: " ++ uri)).
Proof.
  split; [reflexivity |]. split; [reflexivity |].
  intros uri H1 H2. unfold Protocol.handle_read_resource.
  apply String.eqb_neq in H1. apply String.eqb_neq in H2.
  now rewrite H1, H2.
Qed.

(** [read_resource_by_text] on the address of a table that does not exist. *)
Lemma read_resource_by_text_witness :
  Protocol.handle_read_resource ada_db "employees://salaries" =
  Raise "ValueError" "Unknown resource: employees://salaries".
Proof.
  refine (proj2 (proj2 (read_resource_by_text ada_db)) "employees://salaries" _ _);
    discriminate.
Defined.

(* ------------------------------------------------------------------ *)
(** ** The web handlers: what a request writes *)
(* ------------------------------------------------------------------ *)

Section WriteFacts.

Variable py_float : string -> option float.

(** The committed tables after a POST to the create form. *)
Lemma create_outcome (form : Web.Form) (c : Web.ctx) :
  let db := Web.persisted c in
  Web.persisted (snd (Web.serve (Web.create_employee py_float Web.POST form) c)) =
  match salary_of_form py_float form with
  | Some salary =>
      {| employees :=
           employees db ++
           [Employee.mk (Sql.next_id (map Employee.id (employees db)))
              (Web.form_name form) (Web.form_department_id form) salary
              (Py.or_None (Web.form_hire_date form))];
         departments := departments db |}
  | None => db
  end.
Proof.
  unfold Web.serve, Web.create_employee, salary_of_form.
  destruct (Py.or_None (Web.form_salary form)) as [text|]; [| reflexivity].
  destruct (py_float text) as [x|]; reflexivity.
Qed.

(** The committed tables after a POST to the edit form. *)
Lemma edit_outcome (k : Z) (form : Web.Form) (c : Web.ctx) :
  let db := Web.persisted c in
  Web.persisted (snd (Web.serve (Web.edit_employee py_float k Web.POST form) c)) =
  match find (fun e => Employee.id e =? k) (employees db),
        salary_of_form py_float form with
  | Some _, Some salary =>
      {| employees :=
           map (fun e => if Employee.id e =? k
                         then Employee.mk (Employee.id e) (Web.form_name form)
                                (Web.form_department_id form) salary
                                (Py.or_None (Web.form_hire_date form))
                         else e) (employees db);
         departments := departments db |}
  | _, _ => db
  end.
Proof.
  unfold Web.serve, Web.edit_employee, Web.query_get, salary_of_form.
  cbn [Web.teardown Web.working Web.persisted].
  destruct (find _ (employees (Web.persisted c))) as [e|]; [| reflexivity].
  assert (M : forall salary,
    map (fun e0 => if Employee.id e0 =? k
                   then Employee.mk (Employee.id e0) (Employee.name e0)
                          (Employee.department_id e0) salary (Employee.hire_date e0)
                   else e0)
      (map (fun e0 => if Employee.id e0 =? k
                      then Employee.mk (Employee.id e0) (Employee.name e0)
                             (Employee.department_id e0) (Employee.salary e0)
                             (Py.or_None (Web.form_hire_date form))
                      else e0)
         (map (fun e0 => if Employee.id e0 =? k
                         then Employee.mk (Employee.id e0) (Employee.name e0)
                                (Web.form_department_id form) (Employee.salary e0)
                                (Employee.hire_date e0)
                         else e0)
            (map (fun e0 => if Employee.id e0 =? k
                            then Employee.mk (Employee.id e0) (Web.form_name form)
                                   (Employee.department_id e0) (Employee.salary e0)
                                   (Employee.hire_date e0)
                            else e0) (employees (Web.persisted c))))) =
    map (fun e0 => if Employee.id e0 =? k
                   then Employee.mk (Employee.id e0) (Web.form_name form)
                          (Web.form_department_id form) salary
                          (Py.or_None (Web.form_hire_date form))
                   else e0) (employees (Web.persisted c))).
  { intros salary. rewrite !map_map. apply map_ext. intros e0.
    destruct (Employee.id e0 =? k) eqn:E;
      repeat (cbn [Employee.id Employee.name Employee.department_id
                   Employee.salary Employee.hire_date]; rewrite ?E);
      reflexivity. }
  destruct (Py.or_None (Web.form_salary form)) as [text|].
  - destruct (py_float text) as [x|]; [| reflexivity].
    cbn. now rewrite M.
  - cbn. now rewrite M.
Qed.

(** The committed tables after a delete. *)
Lemma delete_outcome (k : Z) (c : Web.ctx) :
  let db := Web.persisted c in
  Web.persisted (snd (Web.serve (Web.delete_employee k) c)) =
  match find (fun e => Employee.id e =? k) (employees db) with
  | Some _ =>
      {| employees := filter (fun e => negb (Employee.id e =? k)) (employees db);
         departments := departments db |}
  | None => db
  end.
Proof.
  unfold Web.serve, Web.delete_employee, Web.query_get.
  cbn [Web.teardown Web.working Web.persisted].
  destruct (find _ (employees (Web.persisted c))); reflexivity.
Qed.

Lemma next_id_not_in ids : ~ In (Sql.next_id ids) ids.
Proof. intros H. apply next_id_fresh in H. lia. Qed.

Lemma nodup_ids_filter (p : Employee.t -> bool) es :
  NoDup (map Employee.id es) -> NoDup (map Employee.id (filter p es)).
Proof.
  induction es as [|e es IH]; intros H; simpl; [constructor |].
  simpl in H. apply NoDup_cons_iff in H. destruct H as [Hn H].
  destruct (p e); [| now apply IH].
  simpl. constructor; [| now apply IH].
  intros Hin. apply Hn. apply in_map_iff in Hin. destruct Hin as [x [Hx Hin]].
  apply filter_In in Hin. rewrite <- Hx. apply in_map. tauto.
Qed.

Lemma ids_after_edit k (g : Employee.t -> Employee.t) es :
  (forall e, Employee.id (g e) = Employee.id e) ->
  map Employee.id (map (fun e => if Employee.id e =? k then g e else e) es) =
  map Employee.id es.
Proof.
  intros Hg. rewrite map_map. apply map_ext. intros e.
  destruct (Employee.id e =? k); [apply Hg | reflexivity].
Qed.

End WriteFacts.

Section LookupFacts.

Lemma filter_left_join_one j ds e :
  filter (fun r : Employee.t * option Department.t => Employee.id (fst r) =? j)
    (Sql.left_join_one ds e) =
  if Employee.id e =? j then Sql.left_join_one ds e else [].
Proof.
  destruct (Employee.id e =? j) eqn:E.
  - rewrite <- (filter_true (Sql.left_join_one ds e)) at 2.
    apply filter_ext_in. intros r Hr. now rewrite (left_join_one_fst ds e r Hr).
  - apply filter_none. intros r Hr. now rewrite (left_join_one_fst ds e r Hr).
Qed.

(** Looking an identifier up in the join is joining the employees that carry
    it. *)
Lemma filter_left_join j es ds :
  filter (fun r : Employee.t * option Department.t => Employee.id (fst r) =? j)
    (Sql.left_join es ds) =
  Sql.left_join (filter (fun e => Employee.id e =? j) es) ds.
Proof.
  unfold Sql.left_join. induction es as [|e es IH]; [reflexivity |].
  change (flat_map (Sql.left_join_one ds) (e :: es))
    with (Sql.left_join_one ds e ++ flat_map (Sql.left_join_one ds) es)%list.
  rewrite filter_app, filter_left_join_one. cbn [filter].
  destruct (Employee.id e =? j).
  - change (flat_map (Sql.left_join_one ds)
              (e :: filter (fun e0 => Employee.id e0 =? j) es))
      with (Sql.left_join_one ds e ++
            flat_map (Sql.left_join_one ds)
              (filter (fun e0 => Employee.id e0 =? j) es))%list.
    f_equal. exact IH.
  - exact IH.
Qed.

Lemma filter_unique_employee es e :
  NoDup (map Employee.id es) -> In e es ->
  filter (fun e' => Employee.id e' =? Employee.id e) es = [e].
Proof.
  induction es as [|e0 es IH]; intros Hnd Hin; [destruct Hin |].
  simpl in Hnd. apply NoDup_cons_iff in Hnd. destruct Hnd as [Hfresh Hnd].
  simpl. destruct Hin as [-> | Hin].
  - rewrite Z.eqb_refl. f_equal. apply filter_none. intros e' He'.
    apply Z.eqb_neq. intros E. apply Hfresh. rewrite <- E. now apply in_map.
  - replace (Employee.id e0 =? Employee.id e) with false.
    + now apply IH.
    + symmetry. apply Z.eqb_neq. intros E. apply Hfresh. rewrite E. now apply in_map.
Qed.

Lemma left_join_one_head ds e :
  exists rest,
    Sql.left_join_one ds e =
    (e, hd_error (filter (Sql.on_department_id e) ds)) :: rest.
Proof.
  unfold Sql.left_join_one.
  destruct (filter (Sql.on_department_id e) ds) as [|d ms].
  - now exists [].
  - exists (map (fun d' => (e, Some d')) ms). reflexivity.
Qed.

(** What [get_employee] returns, in terms of what it reads: the first
    joined row of the first employee that carries the identifier. *)
Lemma get_employee_reads db j :
  Direct.get_employee db j =
  match filter (fun e => Employee.id e =? j) (employees db) with
  | e :: _ =>
      Some (dict_zip Sql.employee_columns
              (Sql.employee_row
                 (e, hd_error (filter (Sql.on_department_id e) (departments db)))))
  | [] => None
  end.
Proof.
  unfold Direct.get_employee. rewrite filter_left_join.
  destruct (filter _ (employees db)) as [|e es]; [reflexivity |].
  unfold Sql.left_join. cbn [flat_map].
  destruct (left_join_one_head (departments db) e) as [rest ->]. reflexivity.
Qed.

Lemma find_is_first_match k ds :
  find (fun d => Department.id d =? k) ds =
  hd_error (filter (fun d => k =? Department.id d) ds).
Proof.
  induction ds as [|d ds IH]; simpl; [reflexivity |].
  rewrite (Z.eqb_sym k). destruct (Department.id d =? k); [reflexivity | exact IH].
Qed.

(** The web model's [to_dict] and the adapters' joined row agree on an
    employee. *)
Lemma to_dict_is_joined_row db e :
  Views.to_dict db e =
  dict_zip Sql.employee_columns
    (Sql.employee_row
       (e, hd_error (filter (Sql.on_department_id e) (departments db)))).
Proof.
  unfold Views.to_dict, Views.department_of, Sql.on_department_id.
  destruct (Employee.department_id e) as [k|] eqn:E.
  - rewrite find_is_first_match.
    destruct (hd_error _) as [d|] eqn:H;
      cbn; unfold Sql.department_name; cbn; rewrite E; reflexivity.
  - rewrite filter_none by reflexivity. cbn. now rewrite E.
Qed.

End LookupFacts.

(** X15: a create submission whose salary text is non-empty and does not
    read as a number writes no row: the create page is rendered again with
    the error "Invalid salary format" flashed, and both the committed tables
    and the session are as before. *)
Theorem create_employee_invalid_salary
    (py_float : string -> option float) (c : Web.ctx)
    (form : Web.Form) (text : string) :
  Web.form_salary form = Some text -> text <> "" -> py_float text = None ->
  let out := Web.serve (Web.create_employee py_float Web.POST form) c in
  fst out = Web.render_template "employees/create.html" /\
  Web.persisted (snd out) = Web.persisted c /\
  Web.working (snd out) = Web.persisted c /\
  Web.flashes (snd out) = (Web.flashes c ++ [("error", "Invalid salary format")])%list.
Proof.
  intros Hs Hne Hp. unfold Web.serve, Web.create_employee.
  rewrite Hs, (or_None_nonempty _ Hne), Hp. cbn. repeat split.
Qed.

(** [create_employee_invalid_salary] on the salary text "lots". *)
Lemma create_employee_invalid_salary_witness :
  let c := {| Web.persisted := ada_db; Web.working := ada_db; Web.flashes := [] |} in
  let form :=
    {| Web.form_name := "Eve"; Web.form_department_id := None;
       Web.form_salary := Some "lots"; Web.form_hire_date := None |} in
  Web.persisted (snd (Web.serve (Web.create_employee float_of_digits Web.POST form) c)) =
  ada_db.
Proof.
  intros c form.
  refine (proj1 (proj2
    (create_employee_invalid_salary float_of_digits c form "lots" _ _ _))).
  - reflexivity.
  - discriminate.
  - reflexivity.
Defined.

(** X16: whatever the request, the three writing handlers leave the
    departments table as committed and keep employee identifiers unique. *)
Theorem handlers_keep_tables (py_float : string -> option float) :
  (forall m form, keeps_tables (Web.create_employee py_float m form)) /\
  (forall k m form, keeps_tables (Web.edit_employee py_float k m form)) /\
  (forall k, keeps_tables (Web.delete_employee k)).
Proof.
  split; [| split].
  - intros [|] form c; cbv zeta.
    + unfold Web.serve, Web.create_employee. cbn. tauto.
    + rewrite create_outcome. cbv zeta.
      destruct (salary_of_form py_float form); [| tauto].
      cbn [employees departments]. split; [reflexivity |].
      intros H. rewrite map_app. cbn [map Employee.id].
      apply NoDup_app; [exact H | constructor; [intros [] | constructor] |].
      intros i Hi [<- | []]. now apply next_id_not_in in Hi.
  - intros k [|] form c; cbv zeta.
    + unfold Web.serve, Web.edit_employee.
      destruct (Web.query_get k (Web.teardown c)); cbn; tauto.
    + rewrite edit_outcome. cbv zeta.
      destruct (find _ _); [| tauto].
      destruct (salary_of_form py_float form); [| tauto].
      cbn [employees departments]. split; [reflexivity |].
      intros H.
      rewrite (ids_after_edit k
                 (fun e => Employee.mk (Employee.id e) (Web.form_name form)
                             (Web.form_department_id form) o
                             (Py.or_None (Web.form_hire_date form))));
        [exact H | reflexivity].
  - intros k c; cbv zeta. rewrite delete_outcome. cbv zeta.
    destruct (find _ _); [| tauto].
    cbn [employees departments]. split; [reflexivity |].
    apply nodup_ids_filter.
Qed.

Section AfterWriteFacts.

Lemma find_member k es e :
  In e es -> Employee.id e = k ->
  exists e', find (fun x => Employee.id x =? k) es = Some e'.
Proof.
  intros Hin Hk. destruct (find _ es) as [e'|] eqn:F; [now exists e' |].
  exfalso. apply (find_none _ _ F) in Hin. rewrite Hk, Z.eqb_refl in Hin. discriminate.
Qed.

Lemma filter_map_edit j k (g : Employee.t -> Employee.t) es :
  (forall e, Employee.id (g e) = Employee.id e) -> j <> k ->
  filter (fun e => Employee.id e =? j)
    (map (fun e => if Employee.id e =? k then g e else e) es) =
  filter (fun e => Employee.id e =? j) es.
Proof.
  intros Hg Hjk. induction es as [|e es IH]; [reflexivity |].
  cbn [map filter]. destruct (Employee.id e =? k) eqn:E.
  - rewrite Hg. apply Z.eqb_eq in E.
    replace (Employee.id e =? j) with false
      by (symmetry; apply Z.eqb_neq; lia).
    exact IH.
  - destruct (Employee.id e =? j); [f_equal |]; exact IH.
Qed.

Lemma filter_after_delete j k es :
  j <> k ->
  filter (fun e => Employee.id e =? j)
    (filter (fun e => negb (Employee.id e =? k)) es) =
  filter (fun e => Employee.id e =? j) es.
Proof.
  intros Hjk. induction es as [|e es IH]; [reflexivity |].
  cbn [filter]. destruct (Employee.id e =? k) eqn:E; cbn [negb filter].
  - apply Z.eqb_eq in E.
    replace (Employee.id e =? j) with false
      by (symmetry; apply Z.eqb_neq; lia).
    exact IH.
  - destruct (Employee.id e =? j); [f_equal |]; exact IH.
Qed.

Lemma filter_deleted k es :
  filter (fun e => Employee.id e =? k)
    (filter (fun e => negb (Employee.id e =? k)) es) = [].
Proof.
  apply filter_none. intros e He. apply filter_In in He.
  destruct He as [_ He]. now apply negb_true_iff in He.
Qed.

End AfterWriteFacts.

(** X17: an accepted edit is read back: after a POST whose salary field is
    empty or reads as a number, on an existing employee of a table with
    unique identifiers, [get_employee] returns that identifier with the
    form's name and department reference, the salary read (NULL for an empty
    field) and the form's hire date (NULL for an empty field). *)
Theorem edit_then_get_employee
    (py_float : string -> option float) (c : Web.ctx)
    (k : Z) (form : Web.Form) (e : Employee.t) (salary : option float) :
  NoDup (map Employee.id (employees (Web.persisted c))) ->
  In e (employees (Web.persisted c)) -> Employee.id e = k ->
  salary_of_form py_float form = Some salary ->
  let out := Web.serve (Web.edit_employee py_float k Web.POST form) c in
  exists row,
    Direct.get_employee (Web.persisted (snd out)) k = Some row /\
    dict_get "id" row = Some (Sql.VInt k) /\
    dict_get "name" row = Some (Sql.VText (Web.form_name form)) /\
    dict_get "department_id" row = Some (Sql.of_int (Web.form_department_id form)) /\
    dict_get "salary" row = Some (Sql.of_real salary) /\
    dict_get "hire_date" row =
      Some (Sql.of_text (Py.or_None (Web.form_hire_date form))).
Proof.
  intros Hnd Hin Hk Hs out. unfold out. rewrite edit_outcome. cbv zeta.
  destruct (find_member k _ e Hin Hk) as [e0 ->]. rewrite Hs.
  set (g := fun e1 : Employee.t =>
              if Employee.id e1 =? k
              then Employee.mk (Employee.id e1) (Web.form_name form)
                     (Web.form_department_id form) salary
                     (Py.or_None (Web.form_hire_date form))
              else e1).
  set (e' := Employee.mk k (Web.form_name form) (Web.form_department_id form)
               salary (Py.or_None (Web.form_hire_date form))).
  assert (Hin' : In e' (map g (employees (Web.persisted c)))).
  { apply in_map_iff. exists e. split; [| exact Hin].
    unfold g. rewrite Hk, Z.eqb_refl. reflexivity. }
  assert (Hnd' : NoDup (map Employee.id (map g (employees (Web.persisted c))))).
  { unfold g.
    rewrite (ids_after_edit k
               (fun e1 => Employee.mk (Employee.id e1) (Web.form_name form)
                            (Web.form_department_id form) salary
                            (Py.or_None (Web.form_hire_date form))));
      [exact Hnd | reflexivity]. }
  rewrite get_employee_reads. cbn [employees departments].
  change k with (Employee.id e') at 1.
  rewrite (filter_unique_employee _ e' Hnd' Hin').
  eexists. split; [reflexivity |]. cbn. repeat split.
Qed.

(** [edit_then_get_employee]: Ada renamed, salary field left empty. *)
Lemma edit_then_get_employee_witness :
  let c := {| Web.persisted := ada_db; Web.working := ada_db; Web.flashes := [] |} in
  let form :=
    {| Web.form_name := "Ada L."; Web.form_department_id := Some 1;
       Web.form_salary := Some ""; Web.form_hire_date := Some "2023-01-15" |} in
  exists row,
    Direct.get_employee
      (Web.persisted (snd (Web.serve (Web.edit_employee float_of_digits 1 Web.POST form) c)))
      1 = Some row /\
    dict_get "name" row = Some (Sql.VText "Ada L.") /\
    dict_get "salary" row = Some Sql.VNull.
Proof.
  intros c form.
  destruct (edit_then_get_employee float_of_digits c 1 form
              (Employee.mk 1 "Ada" (Some 1) (Some 120000%float) (Some "2023-01-15"))
              None) as [row [H1 [_ [H3 [_ [H5 _]]]]]].
  - simpl. constructor; [intros [] | constructor].
  - simpl. left. reflexivity.
  - reflexivity.
  - reflexivity.
  - exists row. split; [exact H1 |]. split; [exact H3 | exact H5].
Defined.

(** X18: deleting an existing employee redirects to the list with a success
    message, after which the identifier is not found any more -- by
    [get_employee], and by a second delete, which aborts with 404. *)
Theorem delete_then_not_found (c : Web.ctx) (k : Z) (e : Employee.t) :
  In e (employees (Web.persisted c)) -> Employee.id e = k ->
  let out := Web.serve (Web.delete_employee k) c in
  fst out = Web.redirect "main.list_employees" /\
  Web.flashes (snd out) =
    (Web.flashes c ++ [("success", "Employee deleted successfully!")])%list /\
  Direct.get_employee (Web.persisted (snd out)) k = None /\
  (forall execute a, arg_employee_id a = Some k ->
     Server.handle_call_tool execute (Web.persisted (snd out)) "get_employee" a =
     Return [Server.Message "Employee not found"]) /\
  fst (Web.serve (Web.delete_employee k) (snd out)) = Web.abort 404.
Proof.
  intros Hin Hk out.
  destruct (find_member k _ e Hin Hk) as [e0 F].
  assert (O : out =
    (Web.redirect "main.list_employees",
     let db' := {| employees := filter (fun x => negb (Employee.id x =? k))
                                  (employees (Web.persisted c));
                   departments := departments (Web.persisted c) |} in
     {| Web.persisted := db'; Web.working := db';
        Web.flashes := (Web.flashes c ++
                        [("success", "Employee deleted successfully!")])%list |})).
  { unfold out, Web.serve, Web.delete_employee, Web.query_get.
    cbn [Web.teardown Web.working Web.persisted]. rewrite F. reflexivity. }
  rewrite O. cbv zeta. cbn [fst snd Web.persisted Web.flashes].
  assert (G : forall ds,
    filter (fun r : Employee.t * option Department.t => Employee.id (fst r) =? k)
      (Sql.left_join (filter (fun x => negb (Employee.id x =? k))
                        (employees (Web.persisted c))) ds) = []).
  { intros ds. rewrite filter_left_join, filter_deleted. reflexivity. }
  split; [reflexivity |]. split; [reflexivity |]. split; [| split].
  - unfold Direct.get_employee. cbn [employees departments]. now rewrite G.
  - intros execute a Ha. unfold Server.handle_call_tool.
    cbn [String.eqb Ascii.eqb Bool.eqb employees departments]. now rewrite Ha, G.
  - unfold Web.serve, Web.delete_employee, Web.query_get.
    cbn [Web.teardown Web.working Web.persisted employees].
    rewrite find_missing; [reflexivity |].
    intros x Hx. apply filter_In in Hx. destruct Hx as [_ Hx].
    apply negb_true_iff, Z.eqb_neq in Hx. exact Hx.
Qed.

(** [delete_then_not_found] for Ada. *)
Lemma delete_then_not_found_witness :
  let c := {| Web.persisted := ada_db; Web.working := ada_db; Web.flashes := [] |} in
  Direct.get_employee
    (Web.persisted (snd (Web.serve (Web.delete_employee 1) c))) 1 = None.
Proof.
  intros c.
  refine (proj1 (proj2 (proj2 (delete_then_not_found c 1
            (Employee.mk 1 "Ada" (Some 1) (Some 120000%float) (Some "2023-01-15"))
            _ _)))).
  - simpl. left. reflexivity.
  - reflexivity.
Defined.

(** X19: a write touches one identifier only.  What [get_employee] returns
    for any other identifier is the same before and after a create (other
    than the identifier assigned), an edit or a delete. *)
Theorem writes_touch_one_row
    (py_float : string -> option float) (c : Web.ctx) (j : Z) :
  (forall form,
     j <> Sql.next_id (map Employee.id (employees (Web.persisted c))) ->
     Direct.get_employee
       (Web.persisted (snd (Web.serve (Web.create_employee py_float Web.POST form) c))) j =
     Direct.get_employee (Web.persisted c) j) /\
  (forall k form, j <> k ->
     Direct.get_employee
       (Web.persisted (snd (Web.serve (Web.edit_employee py_float k Web.POST form) c))) j =
     Direct.get_employee (Web.persisted c) j) /\
  (forall k, j <> k ->
     Direct.get_employee
       (Web.persisted (snd (Web.serve (Web.delete_employee k) c))) j =
     Direct.get_employee (Web.persisted c) j).
Proof.
  split; [| split].
  - intros form Hj. rewrite create_outcome. cbv zeta.
    destruct (salary_of_form py_float form) as [salary|]; [| reflexivity].
    rewrite !get_employee_reads. cbn [employees departments].
    rewrite filter_app. cbn [filter Employee.id].
    replace (Sql.next_id (map Employee.id (employees (Web.persisted c))) =? j)
      with false by (symmetry; apply Z.eqb_neq; lia).
    now rewrite app_nil_r.
  - intros k form Hj. rewrite edit_outcome. cbv zeta.
    destruct (find _ _); [| reflexivity].
    destruct (salary_of_form py_float form) as [salary|]; [| reflexivity].
    rewrite !get_employee_reads. cbn [employees departments].
    rewrite (filter_map_edit j k
               (fun e => Employee.mk (Employee.id e) (Web.form_name form)
                           (Web.form_department_id form) salary
                           (Py.or_None (Web.form_hire_date form))));
      [reflexivity | reflexivity | exact Hj].
  - intros k Hj. rewrite delete_outcome. cbv zeta.
    destruct (find _ _); [| reflexivity].
    rewrite !get_employee_reads. cbn [employees departments].
    now rewrite filter_after_delete.
Qed.

(** [writes_touch_one_row]: Ada is as she was after employee 2 is created. *)
Lemma writes_touch_one_row_witness :
  let c := {| Web.persisted := ada_db; Web.working := ada_db; Web.flashes := [] |} in
  let form :=
    {| Web.form_name := "Bob"; Web.form_department_id := None;
       Web.form_salary := None; Web.form_hire_date := None |} in
  Direct.get_employee
    (Web.persisted (snd (Web.serve (Web.create_employee float_of_digits Web.POST form) c)))
    1 =
  Direct.get_employee ada_db 1.
Proof.
  intros c form.
  refine (proj1 (writes_touch_one_row float_of_digits c 1) form _).
  vm_compute. discriminate.
Defined.

Section EntityFacts.

Lemma unique_entities_copies seen e n rest :
  Views.unique_entities seen (repeat e (S n) ++ rest) =
  if existsb (Z.eqb (Employee.id e)) seen
  then Views.unique_entities seen rest
  else e :: Views.unique_entities (Employee.id e :: seen) rest.
Proof.
  assert (R : forall seen', existsb (Z.eqb (Employee.id e)) seen' = true ->
            forall m, Views.unique_entities seen' (repeat e m ++ rest) =
                      Views.unique_entities seen' rest).
  { intros seen' Hs m. induction m as [|m IH]; [reflexivity |].
    cbn [repeat app Views.unique_entities]. now rewrite Hs. }
  cbn [repeat app Views.unique_entities].
  destruct (existsb _ seen) eqn:E.
  - now apply R.
  - f_equal. apply R. cbn [existsb]. now rewrite Z.eqb_refl.
Qed.

Lemma left_join_one_copies ds e :
  exists n, map fst (Sql.left_join_one ds e) = repeat e (S n).
Proof.
  unfold Sql.left_join_one.
  destruct (filter (Sql.on_department_id e) ds) as [|d ms].
  - now exists 0%nat.
  - exists (List.length ms). cbn [map fst repeat]. f_equal.
    induction ms as [|d' ms IH]; [reflexivity |]. cbn [map fst List.length repeat].
    now rewrite IH.
Qed.

Lemma unique_entities_join seen es ds :
  NoDup (map Employee.id es) ->
  (forall e, In e es -> existsb (Z.eqb (Employee.id e)) seen = false) ->
  Views.unique_entities seen (map fst (Sql.left_join es ds)) = es.
Proof.
  unfold Sql.left_join. revert seen.
  induction es as [|e es IH]; intros seen Hnd Hs; [reflexivity |].
  change (flat_map (Sql.left_join_one ds) (e :: es))
    with (Sql.left_join_one ds e ++ flat_map (Sql.left_join_one ds) es)%list.
  rewrite map_app. unfold Sql.joined.
  destruct (left_join_one_copies ds e) as [n ->].
  rewrite unique_entities_copies, (Hs e (or_introl eq_refl)).
  simpl in Hnd. apply NoDup_cons_iff in Hnd. destruct Hnd as [Hfresh Hnd].
  f_equal. apply IH; [exact Hnd |].
  intros e' He'. cbn [existsb].
  rewrite (Hs e' (or_intror He')), orb_false_r.
  apply Z.eqb_neq. intros E. apply Hfresh. rewrite <- E. now apply in_map.
Qed.

End EntityFacts.

(** X20: with unique employee identifiers the web JSON listing has one
    entry per employee, in table order, and each entry is the row
    [get_employee] returns for that employee's identifier. *)
Theorem api_employees_agrees_with_adapter (db : Database) :
  NoDup (map Employee.id (employees db)) ->
  Views.api_employees db = map (Views.to_dict db) (employees db) /\
  (forall e, In e (employees db) ->
     Direct.get_employee db (Employee.id e) = Some (Views.to_dict db e)) /\
  map Some (Views.api_employees db) =
    map (fun e => Direct.get_employee db (Employee.id e)) (employees db).
Proof.
  intros Hnd.
  assert (A : Views.api_employees db = map (Views.to_dict db) (employees db)).
  { unfold Views.api_employees, Views.query_join_all.
    rewrite unique_entities_join; [reflexivity | exact Hnd | reflexivity]. }
  assert (G : forall e, In e (employees db) ->
            Direct.get_employee db (Employee.id e) = Some (Views.to_dict db e)).
  { intros e He. rewrite get_employee_reads, (filter_unique_employee _ e Hnd He).
    now rewrite to_dict_is_joined_row. }
  split; [exact A |]. split; [exact G |].
  rewrite A, map_map. apply map_ext_in. intros e He. now rewrite G.
Qed.

(** [api_employees_agrees_with_adapter] on the one-employee table. *)
Lemma api_employees_agrees_with_adapter_witness :
  Views.api_employees ada_db = map (Views.to_dict ada_db) (employees ada_db).
Proof.
  refine (proj1 (api_employees_agrees_with_adapter ada_db _)).
  simpl. constructor; [intros [] | constructor].
Defined.

(* ------------------------------------------------------------------ *)
(** ** The command loop *)
(* ------------------------------------------------------------------ *)

Section SplitFacts.

Lemma split_cons c s :
  Cli.split (String c s) =
  if Py.is_space c then Cli.split s
  else
    match s with
    | EmptyString => [String c EmptyString]
    | String d _ =>
        if Py.is_space d then String c EmptyString :: Cli.split s
        else
          match Cli.split s with
          | w :: ws => String c w :: ws
          | [] => [String c EmptyString]
          end
    end.
Proof. reflexivity. Qed.

Lemma split_words s w : In w (Cli.split s) -> is_word w = true.
Proof.
  revert w. induction s as [|c s IH]; intros w; [intros [] |].
  rewrite split_cons. destruct (Py.is_space c) eqn:Ec; [apply IH |].
  assert (W1 : is_word (String c "") = true) by (unfold is_word; simpl; now rewrite Ec).
  destruct s as [|d s']; [intros [<- | []]; exact W1 |].
  destruct (Py.is_space d) eqn:Ed.
  - intros [<- | H]; [exact W1 | now apply IH].
  - destruct (Cli.split (String d s')) as [|w0 ws] eqn:E.
    + intros [<- | []]. exact W1.
    + intros [<- | H].
      * assert (W0 : is_word w0 = true) by (apply IH; now left).
        unfold is_word in *. simpl. rewrite Ec. simpl.
        apply andb_true_iff in W0. tauto.
      * apply IH. now right.
Qed.

Lemma split_word_then w t :
  is_word w = true -> Cli.split (w ++ String " " t) = w :: Cli.split t.
Proof.
  unfold is_word. intros H. apply andb_true_iff in H. destruct H as [Hne Hw].
  induction w as [|c w IH]; [discriminate |].
  simpl in Hw. apply andb_true_iff in Hw. destruct Hw as [Hc Hw].
  apply negb_true_iff in Hc.
  cbn [append]. rewrite split_cons, Hc.
  destruct w as [|d w'].
  - cbn [append]. cbn [Py.is_space]. rewrite split_cons. reflexivity.
  - cbn [append]. simpl in Hw. apply andb_true_iff in Hw. destruct Hw as [Hd Hw'].
    apply negb_true_iff in Hd. rewrite Hd.
    change (String d (w' ++ String " " t)) with (String d w' ++ String " " t).
    rewrite IH; [reflexivity | reflexivity |].
    simpl. now rewrite Hd, Hw'.
Qed.

Lemma split_one_word w : is_word w = true -> Cli.split w = [w].
Proof.
  unfold is_word. intros H. apply andb_true_iff in H. destruct H as [Hne Hw].
  induction w as [|c w IH]; [discriminate |].
  simpl in Hw. apply andb_true_iff in Hw. destruct Hw as [Hc Hw].
  apply negb_true_iff in Hc. rewrite split_cons, Hc.
  destruct w as [|d w']; [reflexivity |].
  simpl in Hw. apply andb_true_iff in Hw. destruct Hw as [Hd Hw'].
  apply negb_true_iff in Hd. rewrite Hd.
  rewrite IH; [reflexivity | reflexivity |].
  simpl. now rewrite Hd, Hw'.
Qed.

Lemma split_join ws :
  (forall w, In w ws -> is_word w = true) -> Cli.split (Cli.join ws) = ws.
Proof.
  induction ws as [|w ws IH]; intros H; [reflexivity |].
  destruct ws as [|w' ws'].
  - apply split_one_word, H. now left.
  - change (Cli.join (w :: w' :: ws')) with (w ++ String " " (Cli.join (w' :: ws'))).
    rewrite split_word_then by (apply H; now left).
    f_equal. apply IH. intros x Hx. apply H. now right.
Qed.

End SplitFacts.

Section LoopFacts.

Variable execute : Database -> string -> Sql.executed.
Variable py_int : string -> Z + string.

Lemma body_break db line :
  Cli.body execute py_int db line = Cli.Break <->
  exists w rest, Cli.split (Py.strip line) = w :: rest /\ Py.lower w = "quit".
Proof.
  unfold Cli.body, Cli.except_Exception.
  destruct (Cli.split (Py.strip line)) as [|w rest].
  - split; [discriminate | intros [w [rest [H _]]]; discriminate].
  - destruct (String.eqb (Py.lower w) "quit") eqn:Q.
    + apply String.eqb_eq in Q. split; [intros _; now exists w, rest | reflexivity].
    + split.
      * intros H. exfalso.
        repeat match type of H with
        | (if ?b then _ else _) = _ => destruct b
        | match ?x with _ => _ end = _ => destruct x
        end; discriminate.
      * intros [w' [rest' [E L]]]. injection E as <- <-.
        rewrite L in Q. discriminate.
Qed.

Lemma loop_app_break db ev1 line ev2 :
  Cli.body execute py_int db line = Cli.Break ->
  Cli.loop execute py_int db (ev1 ++ Cli.Input line :: ev2) =
  Cli.loop execute py_int db ev1.
Proof.
  intros B. induction ev1 as [|[l|] ev1 IH]; cbn [app Cli.loop].
  - now rewrite B.
  - destruct (Cli.body execute py_int db l); [now rewrite IH | reflexivity].
  - reflexivity.
Qed.

Lemma loop_app_interrupt db ev1 ev2 :
  Cli.loop execute py_int db (ev1 ++ Cli.KeyboardInterrupt :: ev2) =
  Cli.loop execute py_int db ev1.
Proof.
  induction ev1 as [|[l|] ev1 IH]; cbn [app Cli.loop]; [reflexivity | | reflexivity].
  destruct (Cli.body execute py_int db l); [now rewrite IH | reflexivity].
Qed.

End LoopFacts.

(** X21: the command loop ends at the first line whose first word is
    [quit] in any letter case, or at an interrupt: that line prints nothing
    and nothing after it is read, whatever came before; and no other line
    ends the loop. *)
Theorem command_loop_stops
    (execute : Database -> string -> Sql.executed)
    (py_int : string -> Z + string) (db : Database) :
  (forall line,
     Cli.body execute py_int db line = Cli.Break <->
     exists w rest, Cli.split (Py.strip line) = w :: rest /\ Py.lower w = "quit") /\
  (forall before line after,
     Cli.body execute py_int db line = Cli.Break ->
     Cli.main execute py_int db (before ++ Cli.Input line :: after) =
     Cli.main execute py_int db before) /\
  (forall before after,
     Cli.main execute py_int db (before ++ Cli.KeyboardInterrupt :: after) =
     Cli.main execute py_int db before).
Proof.
  split; [apply body_break |]. split.
  - intros before line after B. unfold Cli.main. now rewrite loop_app_break.
  - intros before after. unfold Cli.main. now rewrite loop_app_interrupt.
Qed.

(** [command_loop_stops]: nothing is read after " QUIT now". *)
Lemma command_loop_stops_witness :
  Cli.main no_engine (fun _ => inr "not a number") ada_db
    ([Cli.Input "list_departments"] ++ Cli.Input " QUIT now" :: [Cli.Input "get_employee 1"]) =
  Cli.main no_engine (fun _ => inr "not a number") ada_db [Cli.Input "list_departments"].
Proof.
  refine (proj1 (proj2 (command_loop_stops no_engine (fun _ => inr "not a number") ada_db))
            [Cli.Input "list_departments"] " QUIT now" [Cli.Input "get_employee 1"] _).
  reflexivity.
Defined.

(** X22: through the command loop, [safe_query] receives the words after
    the command joined by single blanks, and the loop prints what the
    protocol server does with that statement: the same rows, the same
    refusal text, the server's error text after "Error: " when the engine
    rejects the statement, and "Error: " with the message of the server's
    exception when the rows hold bytes that cannot be rendered. *)
Theorem command_loop_safe_query
    (execute : Database -> string -> Sql.executed)
    (py_int : string -> Z + string) (db : Database)
    (line w q : string) (rest : list string) (a : Arguments) :
  Cli.split (Py.strip line) = w :: q :: rest ->
  Py.lower w = "safe_query" ->
  arg_query a = Some (Cli.join (q :: rest)) ->
  let query := Cli.join (q :: rest) in
  Cli.split query = q :: rest /\
  match Server.handle_call_tool execute db "safe_query" a with
  | Return [Server.Dumps (Server.JList rows)] =>
      Cli.body execute py_int db line = Cli.Continue [Cli.print_rows rows]
  | Return [Server.Message t] =>
      Cli.body execute py_int db line =
      Cli.Continue [Cli.print_line
        (if Direct_validator.validate_sql_safety query then "Error: " ++ t else t)]
  | Raise exception message =>
      exception = "TypeError" /\
      Cli.body execute py_int db line =
      Cli.Continue [Cli.print_line ("Error: " ++ message)]
  | _ => False
  end.
Proof.
  intros Hs Hw Ha query. split.
  - apply split_join. intros x Hx.
    apply (split_words (Py.strip line)). rewrite Hs. now right.
  - unfold Cli.body, Cli.except_Exception. rewrite Hs, Hw.
    cbn [String.eqb Ascii.eqb Bool.eqb].
    unfold Server.handle_call_tool. cbn [String.eqb Ascii.eqb Bool.eqb].
    rewrite Ha. fold query.
    unfold Direct.safe_query, Direct.validate_sql_safety, Server.validate_sql_safety.
    change (Direct_validator.validate_sql_safety query)
      with (Server_validator.validate_sql_safety query).
    destruct (Server_validator.validate_sql_safety query); cbn [negb].
    + destruct (execute db query) as [columns rows|e]; [| reflexivity].
      destruct (json_serializable (map (dict_zip columns) rows));
        [reflexivity | split; reflexivity].
    + reflexivity.
Qed.

(** [command_loop_safe_query] on the statement that brings back bytes. *)
Lemma command_loop_safe_query_witness :
  Cli.body blob_engine (fun _ => inr "not a number") ada_db
    "  Safe_Query   select  x'41'   as b " =
  Cli.Continue [Cli.print_line
    "Error: Object of type bytes is not JSON serializable"].
Proof.
  refine (proj2 (proj2 (command_loop_safe_query blob_engine
            (fun _ => inr "not a number") ada_db
            "  Safe_Query   select  x'41'   as b " "Safe_Query" "select"
            ["x'41'"; "as"; "b"] blob_arguments _ _ _)));
    reflexivity.
Defined.

(** X23: a number the command loop cannot read never reaches the database:
    the loop prints "Error: " and the message of the failed conversion,
    prints no row, and goes on. *)
Theorem command_loop_bad_number
    (execute : Database -> string -> Sql.executed)
    (py_int : string -> Z + string) (db : Database)
    (line w a : string) (rest : list string) (message : string) :
  py_int a = inr message ->
  (Cli.split (Py.strip line) = w :: a :: rest /\
   In (Py.lower w) ["list_employees"; "get_employee"; "get_employee_stats"]) \/
  (exists name department,
     Cli.split (Py.strip line) = w :: name :: department :: a :: rest /\
     Py.lower w = "search_employees") ->
  Cli.body execute py_int db line =
    Cli.Continue [Cli.print_line ("Error: " ++ message)] /\
  forall after,
    Cli.loop execute py_int db (Cli.Input line :: after) =
    (Cli.print_line ("Error: " ++ message) :: Cli.loop execute py_int db after).
Proof.
  intros Hp H.
  assert (B : Cli.body execute py_int db line =
              Cli.Continue [Cli.print_line ("Error: " ++ message)]).
  { unfold Cli.body, Cli.except_Exception.
    destruct H as [[Hs Hw] | [name [department [Hs Hw]]]]; rewrite Hs.
    - cbn [In] in Hw. destruct Hw as [<- | [<- | [<- | []]]];
        cbn [String.eqb Ascii.eqb Bool.eqb]; now rewrite Hp.
    - rewrite Hw. cbn [String.eqb Ascii.eqb Bool.eqb nth_error]. now rewrite Hp. }
  split; [exact B |].
  intros after. cbn [Cli.loop]. now rewrite B.
Qed.

(** [command_loop_bad_number] on "get_employee seven". *)
Lemma command_loop_bad_number_witness :
  Cli.body no_engine (fun s => inr ("invalid literal for int() with base 10: " ++ s))
    ada_db "get_employee seven" =
  Cli.Continue [Cli.print_line "Error: invalid literal for int() with base 10: seven"].
Proof.
  refine (proj1 (command_loop_bad_number no_engine
            (fun s => inr ("invalid literal for int() with base 10: " ++ s))
            ada_db "get_employee seven" "get_employee" "seven" []
            "invalid literal for int() with base 10: seven" _ _)).
  - reflexivity.
  - left. split; [reflexivity | simpl; tauto].
Defined.

(* ------------------------------------------------------------------ *)
(** ** Searching by department *)
(* ------------------------------------------------------------------ *)

(** X24: a search with a department filter in force never returns an
    employee without a department: every row has a department name, which
    matches the filter, whatever the name filter is; and every row of a
    search is a row of the unlimited listing. *)
Theorem search_by_department_needs_department
    (db : Database) (name : option string) (department : string)
    (limit : option Z) (row : Dict) :
  department <> "" ->
  In row (Direct.search_employees db name (Some department) limit) ->
  (exists dn,
     row_text "department_name" row = Some dn /\
     Sql.like ("%" ++ department ++ "%") dn = true) /\
  In row (Direct.list_employees db (Some (-1))).
Proof.
  intros Hd. unfold Direct.search_employees, Direct.list_employees.
  cbn [default]. intros H.
  apply in_map_iff in H. destruct H as [v [<- H]].
  apply in_map_iff in H. destruct H as [r [<- H]].
  apply limit_in, order_by_in, filter_In in H. destruct H as [Hin H].
  apply andb_true_iff in H. destruct H as [_ H].
  destruct department as [|c0 department']; [congruence |].
  cbn [Py.truthy_str] in H. unfold Sql.like_nullable in H.
  destruct (Sql.department_name r) as [dn|] eqn:Edn; [| discriminate].
  split.
  - exists dn. split; [| exact H].
    unfold row_text. cbn. unfold Sql.employee_row. now rewrite Edn.
  - apply in_map, in_map. unfold Sql.limit. cbn [Z.ltb Z.compare].
    apply (Permutation_in r (Permutation_sym (order_by_perm _ _))). exact Hin.
Qed.

(** [search_by_department_needs_department] on the filter "eng". *)
Lemma search_by_department_needs_department_witness :
  In ada_row (Direct.list_employees ada_db (Some (-1))).
Proof.
  refine (proj2 (search_by_department_needs_department ada_db None "eng" None ada_row _ _)).
  - discriminate.
  - vm_compute. left. reflexivity.
Defined.

(* ------------------------------------------------------------------ *)
(** ** Searching up to letter case *)
(* ------------------------------------------------------------------ *)

Section CaseFacts.

Lemma left_join_pairs es ds e d :
  In e es -> In d ds -> Employee.department_id e = Some (Department.id d) ->
  In (e, Some d) (Sql.left_join es ds).
Proof.
  intros He Hd Hr. unfold Sql.left_join. apply in_flat_map. exists e.
  split; [exact He |]. unfold Sql.left_join_one.
  assert (F : In d (filter (Sql.on_department_id e) ds)).
  { apply filter_In. split; [exact Hd |].
    unfold Sql.on_department_id. rewrite Hr. apply Z.eqb_refl. }
  destruct (filter (Sql.on_department_id e) ds) as [|d0 ms]; [destruct F |].
  apply (in_map (fun d' => (e, Some d'))). exact F.
Qed.

(** The WHERE clause of a search with wildcard-free filters, as a test of
    containment up to letter case. *)
Lemma search_where_contains name department (rs : list Sql.joined) :
  no_wildcard name = true -> no_wildcard department = true ->
  filter (fun r : Employee.t * option Department.t =>
            (if Py.truthy_str name
             then Sql.like ("%" ++ name ++ "%") (Employee.name (fst r)) else true) &&
            (if Py.truthy_str department
             then Sql.like_nullable ("%" ++ department ++ "%") (Sql.department_name r)
             else true)) rs =
  filter (fun r : Employee.t * option Department.t =>
            (if Py.truthy_str name
             then Py.contains (Py.lower name) (Py.lower (Employee.name (fst r)))
             else true) &&
            (if Py.truthy_str department
             then match Sql.department_name r with
                  | Some dn => Py.contains (Py.lower department) (Py.lower dn)
                  | None => false
                  end
             else true)) rs.
Proof.
  intros Hn Hd. apply filter_ext. intros r.
  rewrite (like_contains name _ Hn).
  unfold Sql.like_nullable. destruct (Sql.department_name r) as [dn|]; [| reflexivity].
  now rewrite (like_contains department dn Hd).
Qed.

(** A joined row that passes the WHERE clause is returned when the limit
    does not cut. *)
Lemma search_returns db name department n (r : Sql.joined) :
  n < 0 \/
  Z.of_nat (List.length (Sql.left_join (employees db) (departments db))) <= n ->
  In r (Sql.left_join (employees db) (departments db)) ->
  (if Py.truthy_str (default "" name)
   then Sql.like ("%" ++ default "" name ++ "%") (Employee.name (fst r))
   else true) = true ->
  (if Py.truthy_str (default "" department)
   then Sql.like_nullable ("%" ++ default "" department ++ "%") (Sql.department_name r)
   else true) = true ->
  In (dict_zip Sql.employee_columns (Sql.employee_row r))
     (Direct.search_employees db name department (Some n)).
Proof.
  intros Hn Hin H1 H2. unfold Direct.search_employees. cbn [default].
  apply in_map, in_map.
  rewrite limit_all.
  - apply (Permutation_in r (Permutation_sym (order_by_perm _ _))).
    apply filter_In. split; [exact Hin |]. now rewrite H1, H2.
  - destruct Hn as [Hn | Hn]; [now left | right].
    rewrite (Permutation_length (order_by_perm _ _)).
    eapply Z.le_trans; [| exact Hn].
    apply Nat2Z.inj_le, filter_length_le.
Qed.

End CaseFacts.

(** C7, as the code has it: the matching ignores the case of ASCII letters.
    For filters without wildcards a search returns, in order of identifier
    and up to the limit, exactly the joined rows whose name contains the name
    filter, and whose department name contains the department filter, up to
    letter case.  So an employee whose name, or whose department's name,
    contains the filter with a different letter case is returned when the
    limit does not cut; two searches whose filters differ only in letter case
    bring back the same rows; and the protocol server returns what the
    directly-callable adapter returns. *)
Theorem search_employees_ignores_case :
  (forall db name department limit,
     no_wildcard name = true -> no_wildcard department = true ->
     Direct.search_employees db (Some name) (Some department) limit =
     map (dict_zip Sql.employee_columns)
       (map Sql.employee_row
          (Sql.limit (default 50 limit)
             (Sql.order_by (fun r => Employee.id (fst r))
                (filter (fun r : Employee.t * option Department.t =>
                   (if Py.truthy_str name
                    then Py.contains (Py.lower name)
                           (Py.lower (Employee.name (fst r)))
                    else true) &&
                   (if Py.truthy_str department
                    then match Sql.department_name r with
                         | Some dn => Py.contains (Py.lower department) (Py.lower dn)
                         | None => false
                         end
                    else true))
                   (Sql.left_join (employees db) (departments db))))))) /\
  (forall db name n e,
     no_wildcard name = true -> In e (employees db) ->
     Py.contains (Py.lower name) (Py.lower (Employee.name e)) = true ->
     n < 0 \/
     Z.of_nat (List.length (Sql.left_join (employees db) (departments db))) <= n ->
     exists row,
       In row (Direct.search_employees db (Some name) None (Some n)) /\
       dict_get "id" row = Some (Sql.VInt (Employee.id e)) /\
       dict_get "name" row = Some (Sql.VText (Employee.name e))) /\
  (forall db department n e d,
     no_wildcard department = true ->
     In e (employees db) -> In d (departments db) ->
     Employee.department_id e = Some (Department.id d) ->
     Py.contains (Py.lower department) (Py.lower (Department.name d)) = true ->
     n < 0 \/
     Z.of_nat (List.length (Sql.left_join (employees db) (departments db))) <= n ->
     exists row,
       In row (Direct.search_employees db None (Some department) (Some n)) /\
       dict_get "id" row = Some (Sql.VInt (Employee.id e)) /\
       dict_get "department_name" row = Some (Sql.VText (Department.name d))) /\
  (forall f s, no_wildcard f = true ->
     Sql.like ("%" ++ f ++ "%") s = Py.contains (Py.lower f) (Py.lower s)) /\
  (forall db n1 n2 d1 d2 limit,
     Py.lower n1 = Py.lower n2 -> Py.lower d1 = Py.lower d2 ->
     Direct.search_employees db (Some n1) (Some d1) limit =
     Direct.search_employees db (Some n2) (Some d2) limit) /\
  (forall execute db n1 n2 d1 d2 a1 a2,
     Py.lower n1 = Py.lower n2 -> Py.lower d1 = Py.lower d2 ->
     arg_name a1 = Some n1 -> arg_name a2 = Some n2 ->
     arg_department a1 = Some d1 -> arg_department a2 = Some d2 ->
     arg_limit a1 = arg_limit a2 ->
     Server.handle_call_tool execute db "search_employees" a1 =
     Server.handle_call_tool execute db "search_employees" a2) /\
  (forall execute db a,
     Server.handle_call_tool execute db "search_employees" a =
     Return [Server.Dumps (Server.JList
       (Direct.search_employees db (arg_name a) (arg_department a) (arg_limit a)))]).
Proof.
  split; [| split; [| split; [| split; [| split; [| split]]]]].
  - intros db name department limit Hn Hd.
    unfold Direct.search_employees. cbn [default].
    now rewrite (search_where_contains name department _ Hn Hd).
  - intros db name n e Hw He Hc Hn.
    destruct (left_join_covers (employees db) (departments db) e He) as [d Hd].
    exists (dict_zip Sql.employee_columns (Sql.employee_row (e, d))).
    split; [| split; reflexivity].
    apply search_returns; [exact Hn | exact Hd | | reflexivity].
    cbn [default fst]. rewrite (like_contains name _ Hw), Hc.
    now destruct (Py.truthy_str name).
  - intros db department n e d Hw He Hd Hr Hc Hn.
    exists (dict_zip Sql.employee_columns (Sql.employee_row (e, Some d))).
    split; [| split; reflexivity].
    apply search_returns;
      [exact Hn | now apply left_join_pairs | reflexivity |].
    cbn [default Sql.department_name Sql.like_nullable snd option_map].
    rewrite (like_contains department _ Hw), Hc.
    now destruct (Py.truthy_str department).
  - exact like_contains.
  - intros db n1 n2 d1 d2 limit Hn Hd.
    unfold Direct.search_employees. cbn [default].
    now rewrite (search_where_case n1 n2 d1 d2 _ Hn Hd).
  - intros execute db n1 n2 d1 d2 a1 a2 Hn Hd Hn1 Hn2 Hd1 Hd2 Hl.
    unfold Server.handle_call_tool. cbn [String.eqb Ascii.eqb Bool.eqb].
    rewrite Hn1, Hn2, Hd1, Hd2, Hl. cbn [default].
    now rewrite (search_where_case n1 n2 d1 d2 _ Hn Hd).
  - reflexivity.
Qed.

(** [search_employees_ignores_case]: the search for "ADA" returns Ada. *)
Lemma search_employees_ignores_case_witness :
  exists row,
    In row (Direct.search_employees ada_db (Some "ADA") None (Some 10)) /\
    dict_get "id" row = Some (Sql.VInt 1) /\
    dict_get "name" row = Some (Sql.VText "Ada").
Proof.
  refine (proj1 (proj2 search_employees_ignores_case) ada_db "ADA" 10
            (Employee.mk 1 "Ada" (Some 1) (Some 120000%float) (Some "2023-01-15"))
            _ _ _ _).
  - reflexivity.
  - simpl. left. reflexivity.
  - reflexivity.
  - right. vm_compute. discriminate.
Defined.
